(** * job-prep-ai: the authentication routes

    A shallow embedding of [backend/app/core/config.py],
    [backend/app/db/session.py] and [backend/app/routes/auth.py].

    Python objects that are shared and mutated (the claims dictionaries, the
    ORM sessions, the users table, the log sink, the clock) live in one
    [World]; every function of the program is a computation in the state and
    exception monad [M] over it. Instants are microseconds since the epoch
    (the resolution of [datetime]); the [exp] claim of a token is a number
    of whole seconds, as python-jose writes it. *)

From stdpp Require Import gmap strings list fin_maps pretty.
From Stdlib Require Import ZArith Lia.

Local Open Scope Z_scope.

(** ** Python values and exceptions *)

(** The values a claims dictionary holds in this program. *)
Inductive pyval :=
| PStr (s : string)
| PInt (n : Z)
| PDatetime (us : Z)
| PNone.

#[global] Instance pyval_eq_dec : EqDecision pyval.
Proof. solve_decision. Defined.

Abbreviation pydict := (gmap string pyval).

(** The exceptions that travel through the handlers. [JWTError] stands for
    the class and its subclasses ([ExpiredSignatureError], [JWTClaimsError]);
    [JOSEError] for the other errors of python-jose ([JWSError], [JWKError]),
    which are not [JWTError]s. *)
Inductive exn :=
| HTTPException (status_code : Z) (detail : string) (headers : list (string * string))
| JWTError (msg : string)
| JOSEError (msg : string)
| TypeError (msg : string)
| ValueError (msg : string)
| IntegrityError
| OperationalError
| InvalidRequestError
| ArgumentError (msg : string)
| RuntimeError (msg : string)
| ReferenceError.

#[global] Instance exn_eq_dec : EqDecision exn.
Proof. solve_decision. Defined.

Definition is_JWTError (e : exn) : bool :=
  match e with JWTError _ => true | _ => false end.

Definition is_IntegrityError (e : exn) : bool :=
  match e with IntegrityError => true | _ => false end.

Definition HTTP_400_BAD_REQUEST : Z := 400.
Definition HTTP_401_UNAUTHORIZED : Z := 401.
Definition HTTP_404_NOT_FOUND : Z := 404.

(** ** The users table and the ORM session *)

(** Modelled from the spec: [app/db/models.py] is not among the sources.
    The fields are the ones [auth.py] reads and writes; [id] is [None] on an
    object that was never flushed, and the store keeps [email] unique. *)
Record UserModel := mkUser {
  id : option Z;
  name : string;
  email : string;
  password : string;
  bio : string;
  location : string;
  job_title : string;
}.

#[global] Instance UserModel_eq_dec : EqDecision UserModel.
Proof. solve_decision. Defined.

Record Session := mkSession {
  pending : list UserModel;
  close_calls : nat;
}.

(** ** The log sink *)

(** One constructor per [logger] call of [get_current_user]. *)
Inductive log_entry :=
| warning_no_sub (payload : pydict)
| error_decoding_failed (e : exn)
| exception_unexpected (e : exn)
| warning_user_not_found (user_id : pyval)
| exception_db_query_failed (user_id : pyval) (e : exn).

(** ** The world and the monad *)

Record World := mkWorld {
  clock : Z;
  heap : gmap positive pydict;
  log : list log_entry;
  db_online : bool;
  users : list UserModel;
  sessions : gmap positive Session;
}.

Definition set_heap (h : gmap positive pydict) (w : World) : World :=
  mkWorld (clock w) h (log w) (db_online w) (users w) (sessions w).
Definition set_log (l : list log_entry) (w : World) : World :=
  mkWorld (clock w) (heap w) l (db_online w) (users w) (sessions w).
Definition set_users (u : list UserModel) (w : World) : World :=
  mkWorld (clock w) (heap w) (log w) (db_online w) u (sessions w).
Definition set_sessions (s : gmap positive Session) (w : World) : World :=
  mkWorld (clock w) (heap w) (log w) (db_online w) (users w) s.
Definition set_clock (t : Z) (w : World) : World :=
  mkWorld t (heap w) (log w) (db_online w) (users w) (sessions w).

Definition M (A : Type) : Type := World -> World * (exn + A).

Definition ret {A} (a : A) : M A := fun w => (w, inr a).
Definition raise {A} (e : exn) : M A := fun w => (w, inl e).
Definition bind {A B} (m : M A) (k : A -> M B) : M B :=
  fun w => match m w with
           | (w', inr a) => k a w'
           | (w', inl e) => (w', inl e)
           end.

(** [try: m except ...: h]: the handler [h] answers [None] for an exception
    no clause matches, which then propagates. *)
Definition try_except {A} (m : M A) (h : exn -> option (M A)) : M A :=
  fun w => match m w with
           | (w', inr a) => (w', inr a)
           | (w', inl e) => match h e with
                            | Some k => k w'
                            | None => (w', inl e)
                            end
           end.

Definition lift {A} (r : exn + A) : M A := fun w => (w, r).

Declare Scope py_scope.
Delimit Scope py_scope with py.
Notation "'let!' x ':=' m 'in' k" := (bind m (fun x => k))
  (at level 10, x name, m at level 100, k at level 200, only parsing) : py_scope.
Notation "'run!' m 'in' k" := (bind m (fun _ => k))
  (at level 10, m at level 100, k at level 200, only parsing) : py_scope.
Local Open Scope py_scope.

(** ** Primitive effects *)

Definition datetime_now : M Z := fun w => (w, inr (clock w)).

Definition logger (e : log_entry) : M unit :=
  fun w => (set_log (log w ++ [e]) w, inr tt).

(** Dictionaries are objects: a variable holds a location of the heap. *)
Definition dict_new (d : pydict) : M positive :=
  fun w => let l := fresh (dom (heap w)) in
           (set_heap (<[l := d]> (heap w)) w, inr l).

Definition dict_read (l : positive) : M pydict :=
  fun w => match heap w !! l with
           | Some d => (w, inr d)
           | None => (w, inl ReferenceError)
           end.

Definition dict_write (l : positive) (d : pydict) : M unit :=
  fun w => (set_heap (<[l := d]> (heap w)) w, inr tt).

(** [d.copy()]: a new object with the same items. *)
Definition dict_copy (l : positive) : M positive :=
  let! d := dict_read l in dict_new d.

(** [d.update(other)]: in place; the items of [other] win. *)
Definition dict_update (l : positive) (other : pydict) : M unit :=
  let! d := dict_read l in dict_write l (other ∪ d).

(** ** Time *)

(** [timedelta(minutes=m)] in microseconds. *)
Definition timedelta_minutes (m : Z) : Z := m * 60 * 1000000.

(** [calendar.timegm(dt.utctimetuple())]: whole seconds, the microseconds
    dropped. *)
Definition timegm (us : Z) : Z := us `div` 1000000.

(** ** Tokens *)

(** A compact JWS, read structurally: the [alg] of its header, its claims
    and its signature. [Unparsed] is any string that is not three base64url
    segments with a JSON header naming an algorithm and a JSON object as
    payload. *)
Inductive token :=
| Compact (alg : string) (claims : pydict) (sig : N)
| Unparsed (raw : string).

#[global] Instance token_eq_dec : EqDecision token.
Proof. solve_decision. Defined.

(** ** What the program takes from elsewhere *)

(** What python-jose does with a key, [int()] on strings, the reading of a
    string as a compact JWS and [create_engine] are the libraries';
    [app/core/hashing.py] and the database are not among the sources either.
    Nothing is assumed about them. *)
Class Externals := {
  (** membership in python-jose's [ALGORITHMS.SUPPORTED] *)
  algorithm_supported : string -> bool;
  (** the signature [jws.sign] computes for the claims with the key built
      from a string for an algorithm; [None] when building the key or
      signing raises, which [jws.sign] reports as a [JWSError] *)
  sign_header_and_claims : string -> string -> pydict -> option N;
  (** [jws.verify]'s check of a signature over the claims against the keys
      it derives from the configured string for the algorithm of the
      header: whether one of them verifies it, or the exception that
      building one of them raises *)
  sig_matches_keys : string -> string -> pydict -> N -> exn + bool;
  (** a string read as a compact JWS *)
  read_token : string -> token;
  (** [create_engine(url)], which parses the URL and loads its dialect *)
  create_engine : string -> exn + unit;
  (** [int(s)] for a string; [None] is [ValueError] *)
  int_of_str : string -> option Z;
  hash_password : string -> string;
  verify_password : string -> string -> bool;
  (** how the store compares the [id] column with a query parameter *)
  id_matches : Z -> pyval -> bool;
  (** the primary key the store gives the next inserted row *)
  next_id : list UserModel -> Z;
}.

(** The module globals of [auth.py]. *)
Record Settings := mkSettings {
  SECRET_KEY : option string;
  ALGORITHM : option string;
}.

Definition ACCESS_TOKEN_EXPIRE_MINUTES : Z := 90.

(** ** Request and response shapes *)

(** Modelled from the spec: [app/db/schemas.py] is not among the sources;
    the fields are the ones the handlers read. *)
Module UserLoginRequest.
Record t := mk { email : string; password : string }.
End UserLoginRequest.

Module UserSignupRequest.
Record t := mk {
  name : string;
  email : string;
  password : string;
  bio : string;
  location : string;
  job_title : string;
}.
End UserSignupRequest.

(** The ["user_details"] dictionary of the responses. *)
Module UserDetails.
Record t := mk { id : option Z; name : string; email : string }.
End UserDetails.

Module LoginResponse.
Record t := mk {
  status : string;
  message : string;
  access_token : token;
  token_type : string;
  user_details : UserDetails.t;
}.
End LoginResponse.

Module SignupResponse.
Record t := mk {
  status : string;
  message : string;
  user_details : UserDetails.t;
}.
End SignupResponse.

Module CheckTokenResponse.
Record t := mk {
  status : string;
  message : string;
  user : UserDetails.t;
}.
End CheckTokenResponse.

(** ** [config.py] and the module level of [auth.py] *)

(** The process environment, after [load_dotenv()]. *)
Definition getenv (env : gmap string string) (k : string) : option string :=
  env !! k.

(** [config.py]: the value of [DATABASE_URL], or the [ValueError] of line 8
    when the variable is unset or empty. *)
Definition config_module (env : gmap string string) : exn + string :=
  match getenv env "DATABASE_URL" with
  | Some url =>
      if String.eqb url ""
      then inl (ValueError "DATABASE_URL is not set in environment variables.")
      else inr url
  | None => inl (ValueError "DATABASE_URL is not set in environment variables.")
  end.

(** [auth.py], lines 19 to 21. *)
Definition auth_module (env : gmap string string) : Settings :=
  {| SECRET_KEY := getenv env "SECRET_KEY"; ALGORITHM := getenv env "ALGORITHM" |}.

(** [session.py], line 7: the engine is created when the module is
    imported. *)
Definition session_module {E : Externals} (DATABASE_URL : string) : exn + unit :=
  create_engine DATABASE_URL.

(** Process start, as far as the three files go: [auth.py] imports
    [session.py], which imports [config.py] and then creates the engine,
    before [auth.py] reads its own settings. *)
Definition startup {E : Externals} (env : gmap string string) : exn + Settings :=
  match config_module env with
  | inl e => inl e
  | inr url =>
      match session_module url with
      | inl e => inl e
      | inr _ => inr (auth_module env)
      end
  end.

(** ** [OAuth2PasswordBearer], the dependency [oauth2_scheme] of line 17 *)

(** [s.partition(" ")], without the separator. *)
Fixpoint partition_space (s : string) : string * string :=
  match s with
  | EmptyString => (EmptyString, EmptyString)
  | String c rest =>
      if Ascii.eqb c (Ascii.ascii_of_N 32) then (EmptyString, rest)
      else let (scheme, param) := partition_space rest in (String c scheme, param)
  end.

(** [s.lower()], on the ASCII letters: no other character becomes a letter
    of ["bearer"]. *)
Definition lower_char (c : Ascii.ascii) : Ascii.ascii :=
  let n := Ascii.N_of_ascii c in
  if ((65 <=? n) && (n <=? 90))%N then Ascii.ascii_of_N (n + 32) else c.

Fixpoint lower (s : string) : string :=
  match s with
  | EmptyString => EmptyString
  | String c rest => String (lower_char c) (lower rest)
  end.

Definition get_authorization_scheme_param (authorization : option string) : string * string :=
  match authorization with
  | None => (EmptyString, EmptyString)
  | Some v => if String.eqb v "" then (EmptyString, EmptyString) else partition_space v
  end.

Definition not_authenticated : exn :=
  HTTPException HTTP_401_UNAUTHORIZED "Not authenticated" [("WWW-Authenticate", "Bearer")].

(** [oauth2_scheme(request)] on the [Authorization] header of the request:
    the string after the scheme, or the 401 when the header is missing,
    empty or of another scheme. *)
Definition oauth2_scheme (authorization : option string) : exn + string :=
  let (scheme, param) := get_authorization_scheme_param authorization in
  let absent := match authorization with
                | None => true
                | Some v => String.eqb v ""
                end in
  if absent || negb (String.eqb (lower scheme) "bearer")
  then inl not_authenticated
  else inr param.

(** The HMAC algorithms of python-jose. *)
Definition HMAC_ALGORITHMS : list string := ["HS256"; "HS384"; "HS512"].

Definition is_hmac (alg : string) : bool := bool_decide (alg ∈ HMAC_ALGORITHMS).

(** ** A small instance of the externals, to run the program on *)

Fixpoint digits_value (acc : Z) (s : string) : option Z :=
  match s with
  | EmptyString => Some acc
  | String c rest =>
      let n := Z.of_N (Ascii.N_of_ascii c) in
      if (48 <=? n) && (n <=? 57)
      then digits_value (10 * acc + (n - 48)) rest
      else None
  end.

Definition demo_int_of_str (s : string) : option Z :=
  match s with
  | EmptyString => None
  | _ => digits_value 0 s
  end.

Definition demo_mac (alg key : string) (d : pydict) : N :=
  N.of_nat (String.length alg + 31 * String.length key + 7 * size d).

Definition demo_id_matches (k : Z) (v : pyval) : bool :=
  match v with
  | PStr s => String.eqb (pretty k) s
  | _ => false
  end.

Definition demo_claims : pydict := {[ "exp" := PInt 5400 ]} ∪ {[ "sub" := PStr "42" ]}.

Definition demo_token : token :=
  Compact "HS256" demo_claims (demo_mac "HS256" "k" demo_claims).

(** In the instance only the HMAC algorithms have keys, any string is one,
    and a string is verified against as it is; one string reads as the
    token above, and the engine is created for the SQLite URLs. *)
Definition demo : Externals := {|
  algorithm_supported := fun alg =>
    bool_decide (alg ∈ ["HS256"; "HS384"; "HS512"; "RS256"; "RS384"; "RS512";
                        "ES256"; "ES384"; "ES512"]);
  sign_header_and_claims := fun alg key d =>
    if is_hmac alg then Some (demo_mac alg key d) else None;
  sig_matches_keys := fun alg key d sig =>
    if is_hmac alg then inr (N.eqb sig (demo_mac alg key d))
    else inl (JOSEError "Unable to find an algorithm for key");
  read_token := fun s => if String.eqb s "demo.token" then demo_token else Unparsed s;
  create_engine := fun url =>
    if String.prefix "sqlite://" url then inr tt
    else inl (ArgumentError "Could not parse SQLAlchemy URL from given URL string");
  int_of_str := demo_int_of_str;
  hash_password := fun p => String.append "h:" p;
  verify_password := fun p digest => String.eqb (String.append "h:" p) digest;
  id_matches := demo_id_matches;
  next_id := fun rows => 1 + Z.of_nat (length rows);
|}.

Definition demo_cfg : Settings := mkSettings (Some "k") (Some "HS256").

Definition demo_user : UserModel := mkUser (Some 42) "alice" "a@x" "h:pw" "" "" "".

(** A world at the epoch: one dictionary [{"sub": "42"}] at location 1, one
    user, one open session. *)
Definition demo_world : World :=
  mkWorld 0 {[ 1%positive := {[ "sub" := PStr "42" ]} ]} [] true [demo_user]
    {[ 1%positive := mkSession [] 0 ]}.

(** An environment with the database and the algorithm set and no
    [SECRET_KEY], and the settings the program starts with there. *)
Definition demo_env : gmap string string :=
  <[ "ALGORITHM" := "HS256" ]> {[ "DATABASE_URL" := "sqlite:///./app.db" ]}.

Definition keyless_cfg : Settings := mkSettings None (Some "HS256").

Definition demo_login : UserLoginRequest.t := UserLoginRequest.mk "a@x" "pw".

(** A sign-up for an email the table does not hold, and the row another
    request commits for the same email in the meantime. *)
Definition demo_signup : UserSignupRequest.t :=
  UserSignupRequest.mk "bob" "b@x" "pw" "" "" "".

Definition demo_racing : list UserModel := [mkUser None "carol" "b@x" "h:pw2" "" "" ""].

Section Program.

Context {E : Externals}.
Variable cfg : Settings.

(** ** python-jose, as far as the program uses it *)

(** [jwt.encode] turns a [datetime] under ["exp"], ["iat"] or ["nbf"] into
    whole seconds, in place. *)
Definition convert_time_claim (v : pyval) : pyval :=
  match v with
  | PDatetime us => PInt (timegm us)
  | _ => v
  end.

Definition convert_time_claims (d : pydict) : pydict :=
  foldl (fun acc k => alter convert_time_claim k acc) d ["exp"; "iat"; "nbf"].

Definition is_datetime (v : pyval) : bool :=
  match v with PDatetime _ => true | _ => false end.

(** [json.dumps] refuses a [datetime]. *)
Definition json_serializable (d : pydict) : bool :=
  forallb (fun kv => negb (is_datetime kv.2)) (map_to_list d).

(** What building a key from [None] raises. *)
Definition no_key_message (alg : string) : string :=
  if is_hmac alg then "Expecting a string- or bytes-formatted key."
  else "Unable to construct a key from None".

(** [jws.sign]: the algorithm is checked first, then the payload is
    serialized, then the key is built and signs; whatever the last step
    raises comes out as a [JWSError]. *)
Definition jws_sign (d : pydict) (key algorithm : option string) : exn + token :=
  match algorithm with
  | None => inl (JOSEError "Algorithm None not supported.")
  | Some alg =>
      if negb (algorithm_supported alg) then inl (JOSEError "Algorithm not supported.")
      else if negb (json_serializable d)
      then inl (TypeError "Object of type datetime is not JSON serializable")
      else match key with
           | None => inl (JOSEError (no_key_message alg))
           | Some k =>
               match sign_header_and_claims alg k d with
               | Some sig => inr (Compact alg d sig)
               | None => inl (JOSEError "The key cannot sign")
               end
           end
  end.

(** [jwt.encode(claims, key, algorithm=...)]; [claims] is the caller's
    object. *)
Definition jwt_encode (claims : positive) (key algorithm : option string) : M token :=
  let! d := dict_read claims in
  let d' := convert_time_claims d in
  run! dict_write claims d' in
  lift (jws_sign d' key algorithm).

(** [jws.verify], with the wrapping of [JWSError] into [JWTError] that
    [jwt.decode] does: the algorithm of the header must be an allowed one,
    then the signature is checked against the keys derived from the
    configured one. An exception raised while a key is built is not a
    [JWSError] and comes out as it is. *)
Definition jws_verify (t : token) (key : option string)
    (algorithms : list (option string)) : exn + pydict :=
  match t with
  | Unparsed _ => inl (JWTError "Error decoding token headers.")
  | Compact alg claims sig =>
      if negb (bool_decide (Some alg ∈ algorithms))
      then inl (JWTError "The specified alg value is not allowed")
      else match key with
           | None => inl (JOSEError (no_key_message alg))
           | Some k =>
               match sig_matches_keys alg k claims sig with
               | inl e => inl e
               | inr true => inr claims
               | inr false => inl (JWTError "Signature verification failed.")
               end
           end
  end.

(** [int(v)]. *)
Definition py_int (v : pyval) : exn + Z :=
  match v with
  | PInt n => inr n
  | PStr s =>
      match int_of_str s with
      | Some n => inr n
      | None => inl (ValueError "invalid literal for int()")
      end
  | _ => inl (TypeError "int() argument must be a string or a real number")
  end.

(** [int(claims[c])] as the validators call it: a [ValueError] becomes a
    [JWTClaimsError], anything else propagates. *)
Definition int_claim (v : pyval) : exn + Z :=
  match py_int v with
  | inl (ValueError _) => inl (JWTError "claim must be an integer.")
  | r => r
  end.

Definition validate_iat (claims : pydict) : exn + unit :=
  match claims !! "iat" with
  | None => inr tt
  | Some v => match int_claim v with inl e => inl e | inr _ => inr tt end
  end.

Definition validate_nbf (claims : pydict) (now : Z) : exn + unit :=
  match claims !! "nbf" with
  | None => inr tt
  | Some v =>
      match int_claim v with
      | inl e => inl e
      | inr nbf =>
          if now <? nbf then inl (JWTError "The token is not yet valid (nbf)")
          else inr tt
      end
  end.

(** [_validate_exp] with no leeway: expired when [exp < now], both in whole
    seconds. *)
Definition validate_exp (claims : pydict) (now : Z) : exn + unit :=
  match claims !! "exp" with
  | None => inr tt
  | Some v =>
      match int_claim v with
      | inl e => inl e
      | inr exp =>
          if exp <? now then inl (JWTError "Signature has expired.")
          else inr tt
      end
  end.

(** No audience is passed to [jwt.decode], so an ["aud"] claim never
    matches. *)
Definition validate_aud (claims : pydict) : exn + unit :=
  match claims !! "aud" with
  | None => inr tt
  | Some (PStr _) => inl (JWTError "Invalid audience")
  | Some _ => inl (JWTError "Invalid claim format in token")
  end.

Definition validate_sub (claims : pydict) : exn + unit :=
  match claims !! "sub" with
  | None | Some (PStr _) => inr tt
  | Some _ => inl (JWTError "Subject must be a string.")
  end.

Definition validate_jti (claims : pydict) : exn + unit :=
  match claims !! "jti" with
  | None | Some (PStr _) => inr tt
  | Some _ => inl (JWTError "JWT ID must be a string.")
  end.

(** No access token is passed either. *)
Definition validate_at_hash (claims : pydict) : exn + unit :=
  match claims !! "at_hash" with
  | None => inr tt
  | Some _ => inl (JWTError "No access_token provided to compare against at_hash claim.")
  end.

Fixpoint first_error (checks : list (exn + unit)) : exn + unit :=
  match checks with
  | [] => inr tt
  | inl e :: _ => inl e
  | inr _ :: rest => first_error rest
  end.

Definition validate_claims (claims : pydict) (now : Z) : exn + unit :=
  first_error [validate_iat claims; validate_nbf claims now;
               validate_exp claims now; validate_aud claims;
               validate_sub claims; validate_jti claims;
               validate_at_hash claims].

(** [jwt.decode(token, key, algorithms=...)]: the signature first, then the
    claims against the clock read in whole seconds. *)
Definition jwt_decode (t : token) (key : option string)
    (algorithms : list (option string)) : M pydict :=
  let! claims := lift (jws_verify t key algorithms) in
  let! now := datetime_now in
  run! lift (validate_claims claims (timegm now)) in
  ret claims.

(** ** The store behind the ORM session *)

Definition with_id (k : Z) (u : UserModel) : UserModel :=
  mkUser (Some k) (name u) (email u) (password u) (bio u) (location u) (job_title u).

Definition email_taken (rows : list UserModel) (e : string) : bool :=
  existsb (fun r => String.eqb (email r) e) rows.

(** One INSERT: refused when the email is already in the table. *)
Definition store_insert (rows : list UserModel) (u : UserModel) : option (list UserModel) :=
  if email_taken rows (email u) then None
  else Some (rows ++ [with_id (next_id rows) u]).

(** The INSERTs of a flush, all or nothing. *)
Fixpoint insert_all (rows : list UserModel) (objs : list UserModel) : option (list UserModel) :=
  match objs with
  | [] => Some rows
  | u :: rest =>
      match store_insert rows u with
      | Some rows' => insert_all rows' rest
      | None => None
      end
  end.

Definition pending_of (db : positive) (w : World) : list UserModel :=
  match sessions w !! db with
  | Some s => pending s
  | None => []
  end.

Definition closes_of (db : positive) (w : World) : nat :=
  match sessions w !! db with
  | Some s => close_calls s
  | None => 0%nat
  end.

(** [SessionLocal()]. *)
Definition SessionLocal : M positive :=
  fun w => let db := fresh (dom (sessions w)) in
           (set_sessions (<[db := mkSession [] 0]> (sessions w)) w, inr db).

(** [db.query(UserModel).filter(p).first()]; the session does not flush
    before a query ([autoflush=False]). *)
Definition query_first (db : positive) (p : UserModel -> bool) : M (option UserModel) :=
  fun w => if db_online w then (w, inr (List.find p (users w)))
           else (w, inl OperationalError).

Definition db_add (db : positive) (u : UserModel) : M unit :=
  fun w => (set_sessions
              (alter (fun s => mkSession (pending s ++ [u]) (close_calls s)) db (sessions w)) w,
            inr tt).

(** [db.commit()]: flushes the pending objects and commits. The flush writes
    the primary key into each object; the objects as they are afterwards
    are returned here. On [IntegrityError] nothing reaches the table. *)
Definition db_commit (db : positive) : M (list UserModel) :=
  fun w =>
    if db_online w then
      match insert_all (users w) (pending_of db w) with
      | Some rows' =>
          (set_users rows'
             (set_sessions
                (alter (fun s => mkSession [] (close_calls s)) db (sessions w)) w),
           inr (drop (length (users w)) rows'))
      | None => (w, inl IntegrityError)
      end
    else (w, inl OperationalError).

Definition db_rollback (db : positive) : M unit :=
  fun w => (set_sessions
              (alter (fun s => mkSession [] (close_calls s)) db (sessions w)) w,
            inr tt).

(** [db.refresh(obj)]: reads the row of [obj] again, by primary key. *)
Definition db_refresh (db : positive) (obj : UserModel) : M UserModel :=
  let! row := query_first db (fun r => bool_decide (id r = id obj)) in
  match row with
  | Some r => ret r
  | None => raise InvalidRequestError
  end.

Definition db_close (db : positive) : M unit :=
  fun w => (set_sessions
              (alter (fun s => mkSession [] (S (close_calls s))) db (sessions w)) w,
            inr tt).

(** What other requests commit while this one runs: each row goes through
    the same INSERT, and a refused one is dropped. *)
Definition concurrent_commits (rows : list UserModel) : M unit :=
  fun w => (set_users
              (foldl (fun acc u => default acc (store_insert acc u)) (users w) rows) w,
            inr tt).

(** ** [auth.py] *)

Definition create_token (data : positive) : M token :=
  let! to_encode := dict_copy data in
  let! now := datetime_now in
  let expiry_date := now + timedelta_minutes ACCESS_TOKEN_EXPIRE_MINUTES in
  run! dict_update to_encode {[ "exp" := PDatetime expiry_date ]} in
  jwt_encode to_encode (SECRET_KEY cfg) (ALGORITHM cfg).

(** [str(user.id)]. *)
Definition str_id (k : option Z) : string :=
  match k with
  | Some n => pretty n
  | None => "None"
  end.

Definition details_of (u : UserModel) : UserDetails.t :=
  UserDetails.mk (id u) (name u) (email u).

Definition login (request : UserLoginRequest.t) (db : positive) : M LoginResponse.t :=
  let! user := query_first db
                 (fun u => String.eqb (email u) (UserLoginRequest.email request)) in
  match user with
  | None => raise (HTTPException HTTP_404_NOT_FOUND "User not found" [])
  | Some user =>
      if negb (verify_password (UserLoginRequest.password request) (password user))
      then raise (HTTPException HTTP_401_UNAUTHORIZED "Incorrect password" [])
      else
        let! data := dict_new {[ "sub" := PStr (str_id (id user)) ]} in
        let! token := create_token data in
        ret (LoginResponse.mk "success" "User logged in successfully"
               token "bearer" (details_of user))
  end.

(** [racing] is what other requests commit between the query of line 59 and
    the commit of line 76; [[]] when the request runs alone. *)
Definition sign_up (request : UserSignupRequest.t) (db : positive)
    (racing : list UserModel) : M SignupResponse.t :=
  let! existing_user := query_first db
                          (fun u => String.eqb (email u) (UserSignupRequest.email request)) in
  match existing_user with
  | Some _ =>
      raise (HTTPException HTTP_400_BAD_REQUEST "User with this email already registered." [])
  | None =>
      let hashed_password := hash_password (UserSignupRequest.password request) in
      let new_user :=
        mkUser None (UserSignupRequest.name request) (UserSignupRequest.email request)
          hashed_password (UserSignupRequest.bio request)
          (UserSignupRequest.location request) (UserSignupRequest.job_title request) in
      run! concurrent_commits racing in
      try_except
        (run! db_add db new_user in
         let! flushed := db_commit db in
         let! new_user := db_refresh db (List.last flushed new_user) in
         ret (SignupResponse.mk "success" "User created successfully"
                (details_of new_user)))
        (fun e =>
           if is_IntegrityError e
           then Some (run! db_rollback db in
                      raise (HTTPException HTTP_400_BAD_REQUEST "Error while creating user" []))
           else None)
  end.

Definition credentials_exception : exn :=
  HTTPException HTTP_401_UNAUTHORIZED "Could not validate credentials"
    [("WWW-Authenticate", "Bearer")].

(** Lines 100 to 113, the first [try] of [get_current_user]. The
    [HTTPException] of line 106 is raised inside the [try]: it is not a
    [JWTError], so the clause of line 111 catches it. *)
Definition get_current_user_decode (token : token) : M pyval :=
  try_except
    (let! payload := jwt_decode token (SECRET_KEY cfg) [ALGORITHM cfg] in
     match payload !! "sub" with
     | None | Some PNone =>
         run! logger (warning_no_sub payload) in
         raise credentials_exception
     | Some user_id => ret user_id
     end)
    (fun e =>
       if is_JWTError e
       then Some (run! logger (error_decoding_failed e) in raise credentials_exception)
       else Some (run! logger (exception_unexpected e) in raise credentials_exception)).

(** Lines 115 to 122, the second [try]. *)
Definition get_current_user_lookup (db : positive) (user_id : pyval) : M UserModel :=
  try_except
    (let! user := query_first db
                    (fun u => match id u with
                              | Some k => id_matches k user_id
                              | None => false
                              end) in
     match user with
     | None =>
         run! logger (warning_user_not_found user_id) in
         raise credentials_exception
     | Some user => ret user
     end)
    (fun e =>
       Some (run! logger (exception_db_query_failed user_id e) in
             raise credentials_exception)).

Definition get_current_user (token : token) (db : positive) : M UserModel :=
  let! user_id := get_current_user_decode token in
  get_current_user_lookup db user_id.

(** Lines 127 to 137. *)
Definition check_token (current_user : UserModel) : CheckTokenResponse.t :=
  CheckTokenResponse.mk "success" "Token is valid" (details_of current_user).

(** [GET /check-token]: the framework resolves [Depends(get_current_user)],
    that is [Depends(oauth2_scheme)] on the [Authorization] header of the
    request and then [get_current_user] on the string it returned and the
    session of the request, and calls [check_token] with the user. *)
Definition check_token_route (authorization : option string) (db : positive)
    : M CheckTokenResponse.t :=
  let! token := lift (oauth2_scheme authorization) in
  let! current_user := get_current_user (read_token token) db in
  ret (check_token current_user).

(** ** [session.py] *)

(** The generator object of [get_db] (and of [get_db_session], whose body is
    the same): not started, suspended at the [yield] inside the [try], or
    finished. *)
Inductive generator :=
| gen_created
| gen_suspended (db : positive)
| gen_finished.

(** How a generator is resumed: [next(g)], [g.throw(e)], [g.close()]. *)
Inductive resume :=
| Next
| Throw (e : exn)
| Close.

Inductive gen_result :=
| Yielded (db : positive)
| StopIteration
| Raised (e : exn).

Definition get_db (g : generator) (r : resume) (w : World)
    : World * generator * gen_result :=
  match g, r with
  | gen_created, Next =>
      match SessionLocal w with
      | (w', inr db) => (w', gen_suspended db, Yielded db)
      | (w', inl e) => (w', gen_finished, Raised e)
      end
  | gen_created, Throw e => (w, gen_finished, Raised e)
  | gen_created, Close => (w, gen_finished, StopIteration)
  | gen_suspended db, Next =>
      match db_close db w with
      | (w', inr _) => (w', gen_finished, StopIteration)
      | (w', inl e) => (w', gen_finished, Raised e)
      end
  | gen_suspended db, Throw e =>
      match db_close db w with
      | (w', inr _) => (w', gen_finished, Raised e)
      | (w', inl e') => (w', gen_finished, Raised e')
      end
  | gen_suspended db, Close =>
      match db_close db w with
      | (w', inr _) => (w', gen_finished, StopIteration)
      | (w', inl e) => (w', gen_finished, Raised e)
      end
  | gen_finished, Throw e => (w, gen_finished, Raised e)
  | gen_finished, _ => (w, gen_finished, StopIteration)
  end.

(** [get_db_session], lines 18 to 24: the same generator, under
    [@contextmanager]. *)
Definition get_db_session : generator -> resume -> World -> World * generator * gen_result :=
  get_db.

(** A request: the framework (for [Depends(get_db)]) and [contextmanager]
    (for [get_db_session]) start the generator, run the body with what it
    yields, and resume it with [next] when the body returned and with
    [throw] when it raised. *)
Definition with_db {A} (body : positive -> M A) : M A :=
  fun w =>
    match get_db gen_created Next w with
    | (w1, g, Yielded db) =>
        match body db w1 with
        | (w2, inr a) =>
            match get_db g Next w2 with
            | (w3, _, Raised e) => (w3, inl e)
            | (w3, _, _) => (w3, inr a)
            end
        | (w2, inl e) =>
            match get_db g (Throw e) w2 with
            | (w3, _, Raised e') => (w3, inl e')
            | (w3, _, _) => (w3, inl e)
            end
        end
    | (w1, _, Raised e) => (w1, inl e)
    | (w1, _, StopIteration) => (w1, inl (RuntimeError "generator didn't yield"))
    end.

(** ** The spec's failure kinds *)

(** The program has no type of failure kinds: it tells them apart only in
    what it logs. A failed verification is of the kind of the first entry it
    logs: an exception out of [jwt.decode], the missing ["sub"], or the
    lookup. *)
Inductive AuthFailure := Malformed | MissingSubject | SubjectNotFound.

Definition failure_kind (e : log_entry) : AuthFailure :=
  match e with
  | warning_no_sub _ => MissingSubject
  | error_decoding_failed _ | exception_unexpected _ => Malformed
  | warning_user_not_found _ | exception_db_query_failed _ _ => SubjectNotFound
  end.

(** What the first [try] logs when [jwt.decode] raises [e]. *)
Definition decode_failure_entry (e : exn) : log_entry :=
  if is_JWTError e then error_decoding_failed e else exception_unexpected e.

(** The expiry a token encodes. *)
Definition exp_of (t : token) : option pyval :=
  match t with
  | Compact _ claims _ => claims !! "exp"
  | Unparsed _ => None
  end.

(** The claims [create_token] signs for the dictionary [d] at [now]. *)
Definition issued_claims (d : pydict) (now : Z) : pydict :=
  convert_time_claims
    ({[ "exp" := PDatetime (now + timedelta_minutes ACCESS_TOKEN_EXPIRE_MINUTES) ]} ∪ d).

(** The table a sign-up commits against: what other requests committed in
    the meantime included. *)
Definition table_at_commit (racing : list UserModel) (w : World) : list UserModel :=
  users (concurrent_commits racing w).1.

(** The object [sign_up] builds at lines 65 to 72, not yet flushed. *)
Definition signed_up_row_unsaved (request : UserSignupRequest.t) : UserModel :=
  mkUser None (UserSignupRequest.name request) (UserSignupRequest.email request)
    (hash_password (UserSignupRequest.password request)) (UserSignupRequest.bio request)
    (UserSignupRequest.location request) (UserSignupRequest.job_title request).

(** The configured key signs under the algorithm, whatever the claims. *)
Definition key_signs (a k : string) : Prop :=
  forall claims, is_Some (sign_header_and_claims a k claims).

(** The row a sign-up inserts under the primary key [k]. *)
Definition signed_up_row (request : UserSignupRequest.t) (k : Z) : UserModel :=
  mkUser (Some k) (UserSignupRequest.name request) (UserSignupRequest.email request)
    (hash_password (UserSignupRequest.password request)) (UserSignupRequest.bio request)
    (UserSignupRequest.location request) (UserSignupRequest.job_title request).

(** * Properties *)

(** ** Issuance *)

Lemma create_token_eq (data : positive) (d : pydict) (w : World) :
  heap w !! data = Some d ->
  create_token data w =
    (set_heap (<[fresh (dom (heap w)) := issued_claims d (clock w)]> (heap w)) w,
     jws_sign (issued_claims d (clock w)) (SECRET_KEY cfg) (ALGORITHM cfg)).
Proof.
  intros Hd.
  unfold create_token, dict_copy, dict_update, jwt_encode, bind, dict_read,
    dict_new, dict_write, datetime_now, lift.
  rewrite Hd. cbn.
  rewrite lookup_insert_eq. cbn. rewrite lookup_insert_eq. cbn.
  unfold set_heap. cbn. rewrite !insert_insert_eq. reflexivity.
Qed.

Lemma create_token_dangling (data : positive) (w : World) :
  heap w !! data = None -> create_token data w = (w, inl ReferenceError).
Proof.
  intros Hd. unfold create_token, dict_copy, bind, dict_read. rewrite Hd.
  reflexivity.
Qed.

Lemma lookup_convert_time_claims (d : pydict) (k : string) :
  convert_time_claims d !! k =
    if bool_decide (k ∈ ["exp"; "iat"; "nbf"]) then convert_time_claim <$> d !! k
    else d !! k.
Proof.
  unfold convert_time_claims. cbn.
  destruct (decide (k = "nbf")) as [->|Hn].
  { rewrite lookup_alter_eq. rewrite !lookup_alter_ne by done. reflexivity. }
  rewrite lookup_alter_ne by done.
  destruct (decide (k = "iat")) as [->|Hi].
  { rewrite lookup_alter_eq. rewrite !lookup_alter_ne by done. reflexivity. }
  rewrite lookup_alter_ne by done.
  destruct (decide (k = "exp")) as [->|He].
  { rewrite lookup_alter_eq. reflexivity. }
  rewrite lookup_alter_ne by done.
  rewrite bool_decide_eq_false_2; [reflexivity|].
  rewrite !elem_of_cons, elem_of_nil. intros [?|[?|[?|[]]]]; congruence.
Qed.

Lemma timegm_ttl (now : Z) :
  timegm (now + timedelta_minutes ACCESS_TOKEN_EXPIRE_MINUTES) = timegm now + 5400.
Proof.
  unfold timegm, timedelta_minutes, ACCESS_TOKEN_EXPIRE_MINUTES.
  replace (now + 90 * 60 * 1000000) with (now + 5400 * 1000000) by lia.
  rewrite Z.div_add by lia. reflexivity.
Qed.

Lemma issued_claims_exp (d : pydict) (now : Z) :
  issued_claims d now !! "exp" = Some (PInt (timegm now + 5400)).
Proof.
  unfold issued_claims. rewrite lookup_convert_time_claims.
  rewrite bool_decide_eq_true_2 by (rewrite !elem_of_cons; auto).
  rewrite lookup_union_l' by (rewrite lookup_singleton_eq; eauto).
  rewrite lookup_singleton_eq. cbn. rewrite timegm_ttl. reflexivity.
Qed.

Lemma jws_sign_inv (d : pydict) (key algorithm : option string) (tok : token) :
  jws_sign d key algorithm = inr tok ->
  exists a k sig, algorithm = Some a /\ key = Some k /\ algorithm_supported a = true /\
                  json_serializable d = true /\
                  sign_header_and_claims a k d = Some sig /\ tok = Compact a d sig.
Proof.
  unfold jws_sign. intros H.
  destruct algorithm as [a|]; [|discriminate].
  destruct (algorithm_supported a) eqn:Ha; cbn in H; [|discriminate].
  destruct (json_serializable d) eqn:Hj; cbn in H; [|discriminate].
  destruct key as [k|]; [|discriminate].
  destruct (sign_header_and_claims a k d) as [sig|] eqn:Hs; [|discriminate].
  exists a, k, sig. inversion H. auto 10.
Qed.

(** C10. [create_token] leaves the dictionary it is given as it was: the
    caller's object [data] holds the same items after the call, whatever the
    call returns or raises, because [exp] is written to a copy (and the
    conversion [jwt.encode] does in place lands on that copy too). *)
Theorem create_token_keeps_input (data : positive) (d : pydict) (w : World) :
  heap w !! data = Some d ->
  heap (create_token data w).1 !! data = Some d.
Proof.
  intros Hd. rewrite (create_token_eq _ _ _ Hd). cbn.
  rewrite lookup_insert_ne; [exact Hd|].
  intros Heq. apply (is_fresh (dom (heap w))).
  rewrite Heq. apply elem_of_dom. eauto.
Qed.

(** Every object that existed before the call is untouched. *)
Lemma create_token_frame (data l : positive) (w : World) :
  l ∈ dom (heap w) ->
  heap (create_token data w).1 !! l = heap w !! l.
Proof.
  intros Hl. destruct (heap w !! data) as [d|] eqn:Hd.
  - rewrite (create_token_eq _ _ _ Hd). cbn.
    rewrite lookup_insert_ne; [reflexivity|].
    intros Heq. apply (is_fresh (dom (heap w))). rewrite Heq. exact Hl.
  - rewrite (create_token_dangling _ _ Hd). reflexivity.
Qed.

(** C4. Whatever claims dictionary [create_token] is given, a token it
    returns carries as ["exp"] the Unix timestamp of the instant of issuance
    plus [ACCESS_TOKEN_EXPIRE_MINUTES] = 90 minutes, that is the whole
    seconds of the clock plus 5400; an ["exp"] of the input is overwritten. *)
Theorem create_token_expiry (data : positive) (d : pydict) (w : World) (tok : token) :
  heap w !! data = Some d ->
  (create_token data w).2 = inr tok ->
  exp_of tok =
    Some (PInt (timegm (clock w + timedelta_minutes ACCESS_TOKEN_EXPIRE_MINUTES))) /\
  timegm (clock w + timedelta_minutes ACCESS_TOKEN_EXPIRE_MINUTES) = timegm (clock w) + 90 * 60.
Proof.
  intros Hd Htok. rewrite (create_token_eq _ _ _ Hd) in Htok. cbn [snd] in Htok.
  apply jws_sign_inv in Htok as (a & k & sig & _ & _ & _ & _ & _ & ->).
  split; [|apply timegm_ttl].
  unfold exp_of. rewrite issued_claims_exp, timegm_ttl. reflexivity.
Qed.

(** With a key that signs under a supported algorithm, issuance returns
    the signed claims whenever they serialize. *)
Lemma create_token_returns (data : positive) (d : pydict) (w : World) (k a : string)
    (sig : N) :
  SECRET_KEY cfg = Some k -> ALGORITHM cfg = Some a -> algorithm_supported a = true ->
  heap w !! data = Some d ->
  json_serializable (issued_claims d (clock w)) = true ->
  sign_header_and_claims a k (issued_claims d (clock w)) = Some sig ->
  (create_token data w).2 = inr (Compact a (issued_claims d (clock w)) sig).
Proof.
  intros Hk Ha Hh Hd Hj Hs. rewrite (create_token_eq _ _ _ Hd). cbn [snd].
  unfold jws_sign. rewrite Hk, Ha, Hh, Hj, Hs. reflexivity.
Qed.

(** ** Verification *)

Lemma jwt_decode_eq (t : token) (key : option string)
    (algorithms : list (option string)) (w : World) :
  jwt_decode t key algorithms w =
    (w, match jws_verify t key algorithms with
        | inl e => inl e
        | inr claims =>
            match validate_claims claims (timegm (clock w)) with
            | inl e => inl e
            | inr _ => inr claims
            end
        end).
Proof.
  unfold jwt_decode, bind, lift, datetime_now, ret.
  destruct (jws_verify t key algorithms) as [e|claims]; [reflexivity|].
  destruct (validate_claims claims (timegm (clock w))); reflexivity.
Qed.

(** The first [try] of [get_current_user], by the cases of its source. *)
Lemma get_current_user_decode_eq (t : token) (w : World) :
  get_current_user_decode t w =
    match (jwt_decode t (SECRET_KEY cfg) [ALGORITHM cfg] w).2 with
    | inl e =>
        (set_log (log w ++ [decode_failure_entry e]) w, inl credentials_exception)
    | inr payload =>
        match payload !! "sub" with
        | None | Some PNone =>
            (set_log (log w ++ [warning_no_sub payload;
                                exception_unexpected credentials_exception]) w,
             inl credentials_exception)
        | Some user_id => (w, inr user_id)
        end
    end.
Proof.
  unfold get_current_user_decode, try_except, bind.
  rewrite jwt_decode_eq. cbn [snd].
  destruct (jws_verify t (SECRET_KEY cfg) [ALGORITHM cfg]) as [e|claims].
  { unfold decode_failure_entry. destruct (is_JWTError e); reflexivity. }
  destruct (validate_claims claims (timegm (clock w))) as [e|[]].
  { unfold decode_failure_entry. destruct (is_JWTError e); reflexivity. }
  destruct (claims !! "sub") as [[]|]; try reflexivity;
    unfold logger, raise, set_log; cbn; rewrite <- app_assoc; reflexivity.
Qed.

(** The second [try], likewise. *)
Lemma get_current_user_lookup_eq (db : positive) (user_id : pyval) (w : World) :
  get_current_user_lookup db user_id w =
    if db_online w then
      match List.find (fun u => match id u with
                                | Some k => id_matches k user_id
                                | None => false
                                end) (users w) with
      | Some user => (w, inr user)
      | None =>
          (set_log (log w ++ [warning_user_not_found user_id;
                              exception_db_query_failed user_id credentials_exception]) w,
           inl credentials_exception)
      end
    else
      (set_log (log w ++ [exception_db_query_failed user_id OperationalError]) w,
       inl credentials_exception).
Proof.
  unfold get_current_user_lookup, try_except, bind, query_first.
  destruct (db_online w); [|reflexivity].
  destruct (List.find _ (users w)); [reflexivity|].
  unfold logger, raise, set_log; cbn. rewrite <- app_assoc. reflexivity.
Qed.

(** The claims of a token issued for the subject [s]. *)
Lemma issued_claims_subject (s : string) (now : Z) :
  issued_claims {[ "sub" := PStr s ]} now =
    {[ "exp" := PInt (timegm now + 5400) ]} ∪ {[ "sub" := PStr s ]}.
Proof.
  rewrite <- timegm_ttl. reflexivity.
Qed.

Lemma subject_claims_serializable (e : Z) (s : string) :
  json_serializable ({[ "exp" := PInt e ]} ∪ {[ "sub" := PStr s ]}) = true.
Proof. reflexivity. Qed.

Lemma validate_subject_claims (e now : Z) (s : string) :
  now <= e ->
  validate_claims ({[ "exp" := PInt e ]} ∪ {[ "sub" := PStr s ]}) now = inr tt.
Proof.
  intros Hle. unfold validate_claims, validate_iat, validate_nbf, validate_exp,
    validate_aud, validate_sub, validate_jti, validate_at_hash.
  change (({[ "exp" := PInt e ]} ∪ {[ "sub" := PStr s ]} : pydict) !! "exp")
    with (Some (PInt e)).
  cbn. destruct (Z.ltb_spec e now); [lia|reflexivity].
Qed.

Lemma timegm_before (t e : Z) : t < e * 1000000 -> timegm t < e.
Proof.
  intros H. unfold timegm. apply Z.div_lt_upper_bound; lia.
Qed.

Lemma jws_verify_accepted (a k : string) (claims : pydict) (sig : N) :
  sig_matches_keys a k claims sig = inr true ->
  jws_verify (Compact a claims sig) (Some k) [Some a] = inr claims.
Proof.
  intros Hm. unfold jws_verify.
  rewrite bool_decide_eq_true_2 by (apply list_elem_of_here).
  cbn [negb]. rewrite Hm. reflexivity.
Qed.


Lemma decode_failure_kind (e : exn) :
  failure_kind (decode_failure_entry e) = Malformed.
Proof. unfold decode_failure_entry. destruct (is_JWTError e); reflexivity. Qed.

Lemma validate_claims_expired (claims : pydict) (e now : Z) :
  claims !! "exp" = Some (PInt e) -> e < now ->
  exists err, validate_claims claims now = inl err.
Proof.
  intros Hexp Hlt. unfold validate_claims. cbn [first_error].
  destruct (validate_iat claims) as [err|]; [eauto|].
  destruct (validate_nbf claims now) as [err|]; [eauto|].
  unfold validate_exp. rewrite Hexp. cbn.
  destruct (Z.ltb_spec e now); [eauto|lia].
Qed.

(** One second after issuance plus the lifetime, the whole seconds of the
    clock have passed the encoded expiry. *)
Lemma late_by_a_second (issued now : Z) :
  issued + timedelta_minutes ACCESS_TOKEN_EXPIRE_MINUTES + 1000000 <= now ->
  timegm issued + 5400 < timegm now.
Proof.
  intros H. unfold timegm, timedelta_minutes, ACCESS_TOKEN_EXPIRE_MINUTES in *.
  assert (issued `div` 1000000 + 5401 <= now `div` 1000000); [|lia].
  replace (issued `div` 1000000 + 5401) with ((issued + 5401 * 1000000) `div` 1000000)
    by (rewrite Z.div_add by lia; reflexivity).
  apply Z.div_le_mono; lia.
Qed.

(** C3, as the program has it. A token [create_token] returned is refused
    at every instant whose whole seconds are past the expiry it encodes (the
    whole seconds of the issuance plus 5400), so at every instant from one
    second after issuance plus 90 minutes on: [jwt.decode] raises, the first
    [try] logs that and raises the 401 [credentials_exception], and the
    failure is of the [Malformed] kind. *)
Theorem expired_token_rejected (data : positive) (d : pydict) (w w' : World) (tok : token) :
  heap w !! data = Some d ->
  (create_token data w).2 = inr tok ->
  timegm (clock w) + 90 * 60 < timegm (clock w') ->
  exists e,
    get_current_user_decode tok w' =
      (set_log (log w' ++ [decode_failure_entry e]) w', inl credentials_exception) /\
    failure_kind (decode_failure_entry e) = Malformed.
Proof.
  intros Hd Htok Hlate. rewrite (create_token_eq _ _ _ Hd) in Htok. cbn [snd] in Htok.
  apply jws_sign_inv in Htok as (a & k & sig & Ha & Hk & _ & _ & _ & ->).
  rewrite get_current_user_decode_eq, jwt_decode_eq. cbn [snd].
  rewrite Hk, Ha. unfold jws_verify.
  rewrite bool_decide_eq_true_2 by (apply list_elem_of_here). cbn [negb].
  destruct (sig_matches_keys a k (issued_claims d (clock w)) sig) as [e|[|]].
  - exists e. split; [reflexivity|apply decode_failure_kind].
  - destruct (validate_claims_expired _ _ (timegm (clock w')) (issued_claims_exp d (clock w)))
      as [err Herr]; [lia|].
    rewrite Herr. exists err. split; [reflexivity|apply decode_failure_kind].
  - eexists. split; [reflexivity|apply decode_failure_kind].
Qed.

(** C5. When [jwt.decode] accepts a token whose payload has no ["sub"],
    [get_current_user] logs the warning of line 105 first, raises the 401
    [credentials_exception] and never reaches the lookup: the failure is of
    the [MissingSubject] kind, and no user is returned. *)
Theorem missing_subject_rejected (t : token) (db : positive) (w : World) (payload : pydict) :
  (jwt_decode t (SECRET_KEY cfg) [ALGORITHM cfg] w).2 = inr payload ->
  payload !! "sub" = None ->
  get_current_user t db w =
    (set_log (log w ++ [warning_no_sub payload;
                        exception_unexpected credentials_exception]) w,
     inl credentials_exception) /\
  failure_kind (warning_no_sub payload) = MissingSubject.
Proof.
  intros Hdec Hsub. split; [|reflexivity].
  unfold get_current_user, bind. rewrite get_current_user_decode_eq, Hdec, Hsub.
  reflexivity.
Qed.

Lemma get_current_user_fails (t : token) (db : positive) (w : World) (e : exn) :
  (get_current_user t db w).2 = inl e -> e = credentials_exception.
Proof.
  unfold get_current_user, bind. rewrite get_current_user_decode_eq.
  destruct ((jwt_decode t (SECRET_KEY cfg) [ALGORITHM cfg] w).2) as [err|payload].
  { cbn. congruence. }
  assert (Hlookup : forall v, (get_current_user_lookup db v w).2 = inl e ->
                              e = credentials_exception).
  { intros v. rewrite get_current_user_lookup_eq.
    destruct (db_online w); [|cbn; congruence].
    destruct (List.find _ (users w)); cbn; congruence. }
  destruct (payload !! "sub") as [[]|]; cbn [snd]; try (cbn; congruence); apply Hlookup.
Qed.

(** C6. Two verifications that fail, for whatever reasons (an exception out
    of [jwt.decode], a missing ["sub"], a lookup that finds nobody or
    raises), raise the same exception: the 401 [credentials_exception] with
    its one message. *)
Theorem failures_indistinguishable (t1 t2 : token) (db1 db2 : positive)
    (w1 w2 : World) (e1 e2 : exn) :
  (get_current_user t1 db1 w1).2 = inl e1 ->
  (get_current_user t2 db2 w2).2 = inl e2 ->
  e1 = e2 /\ e1 = credentials_exception.
Proof.
  intros H1 H2. apply get_current_user_fails in H1, H2. subst. auto.
Qed.

(** ** Signing up and logging in *)

Lemma find_email_taken (rows : list UserModel) (e : string) :
  email_taken rows e = true ->
  exists u, List.find (fun u => String.eqb (email u) e) rows = Some u.
Proof.
  unfold email_taken. induction rows as [|r rows IH]; cbn; [discriminate|].
  destruct (String.eqb (email r) e); cbn; eauto.
Qed.

Lemma find_email_free (rows : list UserModel) (e : string) :
  email_taken rows e = false ->
  List.find (fun u => String.eqb (email u) e) rows = None.
Proof.
  unfold email_taken. induction rows as [|r rows IH]; cbn; [reflexivity|].
  destruct (String.eqb (email r) e); cbn; [discriminate|exact IH].
Qed.

Lemma email_taken_app (rows more : list UserModel) (e : string) :
  email_taken rows e = true -> email_taken (rows ++ more) e = true.
Proof.
  unfold email_taken. intros H. rewrite existsb_app, H. reflexivity.
Qed.

(** A flush whose last object has an email the table already holds inserts
    nothing. *)
Lemma insert_all_taken (objs : list UserModel) (u : UserModel) :
  forall rows, email_taken rows (email u) = true ->
               insert_all rows (objs ++ [u]) = None.
Proof.
  induction objs as [|o objs IH]; intros rows Htaken; cbn.
  - unfold store_insert. rewrite Htaken. reflexivity.
  - unfold store_insert at 1. destruct (email_taken rows (email o)); [reflexivity|].
    apply IH, email_taken_app, Htaken.
Qed.

(** C7. Signing up with an email the store already holds is answered with a
    400 and adds no row. When the query of line 59 sees the email, nothing
    at all has changed. When it does not and the email is in the table by
    the time of the commit, the commit raises [IntegrityError], the session
    is rolled back, and the table is the one the commit ran against. *)
Theorem sign_up_duplicate (request : UserSignupRequest.t) (db : positive)
    (racing : list UserModel) (w : World) (s : Session) :
  db_online w = true ->
  sessions w !! db = Some s ->
  email_taken (users (concurrent_commits racing w).1) (UserSignupRequest.email request) = true ->
  if email_taken (users w) (UserSignupRequest.email request)
  then sign_up request db racing w =
         (w, inl (HTTPException HTTP_400_BAD_REQUEST
                    "User with this email already registered." []))
  else (sign_up request db racing w).2 =
         inl (HTTPException HTTP_400_BAD_REQUEST "Error while creating user" []) /\
       users (sign_up request db racing w).1 = users (concurrent_commits racing w).1 /\
       pending_of db (sign_up request db racing w).1 = [].
Proof.
  intros Hon Hs Hdup.
  destruct (email_taken (users w) (UserSignupRequest.email request)) eqn:Hpre.
  - destruct (find_email_taken _ _ Hpre) as [u Hu].
    unfold sign_up, bind, query_first. rewrite Hon, Hu. reflexivity.
  - unfold sign_up, bind, query_first. rewrite Hon, (find_email_free _ _ Hpre).
    set (new_user := mkUser None _ _ _ _ _ _).
    unfold try_except, db_add, db_commit, db_rollback, raise.
    cbn in Hdup |- *. rewrite Hon.
    unfold pending_of. cbn. rewrite lookup_alter_eq, Hs. cbn.
    rewrite (insert_all_taken (pending s) new_user _ Hdup). cbn.
    repeat split. unfold pending_of. cbn. rewrite !lookup_alter_eq, Hs. reflexivity.
Qed.

Lemma create_token_sessions (data : positive) (w : World) :
  sessions (create_token data w).1 = sessions w.
Proof.
  destruct (heap w !! data) as [d|] eqn:Hd.
  - rewrite (create_token_eq _ _ _ Hd). reflexivity.
  - rewrite (create_token_dangling _ _ Hd). reflexivity.
Qed.

Lemma login_sessions (request : UserLoginRequest.t) (db : positive) (w : World) :
  sessions (login request db w).1 = sessions w.
Proof.
  unfold login, bind, query_first.
  destruct (db_online w); [|reflexivity].
  destruct (List.find _ (users w)) as [u|]; [|reflexivity].
  destruct (verify_password _ _); [|reflexivity].
  cbn. rewrite (surjective_pairing (create_token _ _)).
  destruct ((create_token _ _).2) eqn:Hr; cbn; rewrite create_token_sessions; reflexivity.
Qed.

(** C8. With the store reachable, [login] answers by the three cases of its
    source: 404 when no user has the email; 401 when the password does not
    verify against the user's digest; and otherwise, whenever it returns,
    the response with a token for [str(user.id)] expiring 90 minutes on,
    the token type ["bearer"] and the user's summary, which it does return
    when the configured key signs those claims under the configured,
    supported algorithm. *)
Theorem login_outcomes (request : UserLoginRequest.t) (db : positive) (w : World) :
  db_online w = true ->
  match List.find (fun u => String.eqb (email u) (UserLoginRequest.email request)) (users w) with
  | None =>
      (login request db w).2 = inl (HTTPException HTTP_404_NOT_FOUND "User not found" [])
  | Some user =>
      if verify_password (UserLoginRequest.password request) (password user)
      then let claims := {[ "exp" := PInt (timegm (clock w) + 5400) ]}
                           ∪ {[ "sub" := PStr (str_id (id user)) ]} in
           (forall r, (login request db w).2 = inr r ->
              exists a sig,
                r = LoginResponse.mk "success" "User logged in successfully"
                      (Compact a claims sig) "bearer" (details_of user)) /\
           (forall k a sig,
              SECRET_KEY cfg = Some k -> ALGORITHM cfg = Some a ->
              algorithm_supported a = true ->
              sign_header_and_claims a k claims = Some sig ->
              (login request db w).2 =
                inr (LoginResponse.mk "success" "User logged in successfully"
                       (Compact a claims sig) "bearer" (details_of user)))
      else (login request db w).2 =
             inl (HTTPException HTTP_401_UNAUTHORIZED "Incorrect password" [])
  end.
Proof.
  intros Hon. unfold login, bind, query_first. rewrite Hon.
  destruct (List.find _ (users w)) as [user|]; [|reflexivity].
  destruct (verify_password _ _); [|reflexivity].
  cbn [negb]. cbv beta iota zeta.
  unfold dict_new. cbv beta iota zeta.
  set (l := fresh (dom (heap w))).
  set (w1 := set_heap _ w).
  assert (Hl : heap w1 !! l = Some {[ "sub" := PStr (str_id (id user)) ]})
    by apply lookup_insert_eq.
  split.
  - intros r. rewrite (create_token_eq l _ w1 Hl).
    change (clock w1) with (clock w). rewrite issued_claims_subject.
    destruct (jws_sign _ (SECRET_KEY cfg) (ALGORITHM cfg)) as [e|tok] eqn:Hsign;
      [discriminate|].
    apply jws_sign_inv in Hsign as (a & k & sig & _ & _ & _ & _ & _ & ->).
    intros H. inversion H. eauto.
  - intros k a sig Hk Ha Hh Hsign.
    pose proof (create_token_returns l _ w1 k a sig Hk Ha Hh Hl) as Hret.
    rewrite issued_claims_subject in Hret.
    specialize (Hret (subject_claims_serializable _ _) Hsign).
    rewrite (surjective_pairing (create_token l w1)), Hret. reflexivity.
Qed.

(** ** The session of a request *)

Lemma db_close_closes (db : positive) (w : World) :
  is_Some (sessions w !! db) ->
  closes_of db (db_close db w).1 = S (closes_of db w).
Proof.
  intros [s Hs]. unfold closes_of, db_close. cbn.
  rewrite lookup_alter_eq, Hs. reflexivity.
Qed.

(** Resumed at its [yield], by [next], [throw] or [close], the generator
    runs the [finally] and is finished. *)
Lemma get_db_resumed (db : positive) (r : resume) (w : World) :
  is_Some (sessions w !! db) ->
  closes_of db (get_db (gen_suspended db) r w).1.1 = S (closes_of db w) /\
  (get_db (gen_suspended db) r w).1.2 = gen_finished.
Proof.
  intros Hs. destruct r; cbn; split; try reflexivity; apply (db_close_closes db w Hs).
Qed.

(** A finished generator does nothing more. *)
Lemma get_db_finished (r : resume) (w : World) :
  (get_db gen_finished r w).1 = (w, gen_finished).
Proof. destruct r; reflexivity. Qed.

(** C9. The session a request obtains from [get_db] is new, and when the
    body of the request does not close it itself, it has been closed exactly
    once when the request is over, whether the body returned or raised. The
    same holds for every way the suspended generator can be resumed ([next],
    [throw], [close]), and a finished generator closes nothing again. *)
Theorem session_closed_once {A : Type} (body : positive -> M A) (w : World) :
  (forall db w', closes_of db (body db w').1 = closes_of db w' /\
                 (is_Some (sessions w' !! db) -> is_Some (sessions (body db w').1 !! db))) ->
  let db := fresh (dom (sessions w)) in
  sessions w !! db = None /\
  closes_of db (with_db body w).1 = 1%nat /\
  (forall r w', is_Some (sessions w' !! db) ->
     closes_of db (get_db (gen_suspended db) r w').1.1 = S (closes_of db w') /\
     (get_db (gen_suspended db) r w').1.2 = gen_finished) /\
  (forall r w', (get_db gen_finished r w').1 = (w', gen_finished)).
Proof.
  intros Hbody db.
  split. { apply not_elem_of_dom, is_fresh. }
  split; [|split; [intros r w'; apply get_db_resumed | apply get_db_finished]].
  unfold with_db. cbn -[db_close closes_of]. fold db.
  set (w1 := set_sessions _ w).
  assert (H1 : sessions w1 !! db = Some (mkSession [] 0)) by apply lookup_insert_eq.
  destruct (Hbody db w1) as [Hkeep Hstays].
  assert (H0 : closes_of db (body db w1).1 = 0%nat).
  { rewrite Hkeep. unfold closes_of. rewrite H1. reflexivity. }
  assert (Hs : is_Some (sessions (body db w1).1 !! db)) by (apply Hstays; eauto).
  destruct (body db w1) as [w2 [e|a]]; cbn [fst] in *.
  - change (closes_of db (db_close db w2).1 = 1%nat).
    rewrite (db_close_closes db w2 Hs), H0. reflexivity.
  - change (closes_of db (db_close db w2).1 = 1%nat).
    rewrite (db_close_closes db w2 Hs), H0. reflexivity.
Qed.

(** * Further properties *)

(** ** Start-up *)

(** As far as the three files go, the program starts exactly when
    [DATABASE_URL] is set, not empty and a URL [create_engine] accepts, and
    its settings are then what the environment holds for [SECRET_KEY] and
    [ALGORITHM], unset included: neither is looked at. *)
Theorem startup_iff (env : gmap string string) (st : Settings) :
  startup env = inr st <->
  (exists url, getenv env "DATABASE_URL" = Some url /\ url <> "" /\
               create_engine url = inr tt) /\
  st = auth_module env.
Proof.
  unfold startup, config_module, session_module.
  destruct (getenv env "DATABASE_URL") as [url|].
  - destruct (String.eqb_spec url "") as [->|Hne].
    { split; [discriminate|]. intros [(u & Hu & Hne & _) _]. congruence. }
    destruct (create_engine url) as [e|[]] eqn:Hengine; split.
    + discriminate.
    + intros [(u & Hu & _ & Hok) _]. inversion Hu; subst. congruence.
    + intros H. inversion H. eauto.
    + intros [_ ->]. reflexivity.
  - split; [discriminate|]. intros [(u & Hu & _) _]. discriminate.
Qed.

(** ** Signing up *)

Lemma concurrent_commits_grows (racing : list UserModel) (w : World) :
  exists more, table_at_commit racing w = users w ++ more.
Proof.
  unfold table_at_commit, concurrent_commits. cbn.
  generalize (users w). induction racing as [|u racing IH]; intros rows; cbn.
  - exists []. rewrite app_nil_r. reflexivity.
  - unfold store_insert at 2. destruct (email_taken rows (email u)); cbn.
    + apply IH.
    + destruct (IH (rows ++ [with_id (next_id rows) u])) as [more Hmore].
      exists (with_id (next_id rows) u :: more). rewrite Hmore, <- app_assoc. reflexivity.
Qed.

Lemma email_free_before (rows more : list UserModel) (e : string) :
  email_taken (rows ++ more) e = false -> email_taken rows e = false.
Proof.
  intros H. destruct (email_taken rows e) eqn:Ht; [|reflexivity].
  rewrite (email_taken_app _ more _ Ht) in H. discriminate.
Qed.

Lemma find_app_last {A} (P : A -> bool) (l : list A) (x : A) :
  Forall (fun r => P r = false) l -> P x = true ->
  List.find P (l ++ [x]) = Some x.
Proof.
  intros Hl Hx. induction Hl as [|r l Hr _ IH]; cbn.
  - rewrite Hx. reflexivity.
  - rewrite Hr. exact IH.
Qed.

(** What [sign_up] does once the query of line 59 found nobody. *)
Lemma sign_up_free (request : UserSignupRequest.t) (db : positive)
    (racing : list UserModel) (w : World) :
  db_online w = true ->
  email_taken (users w) (UserSignupRequest.email request) = false ->
  sign_up request db racing w =
    try_except
      (let! _ := db_add db (signed_up_row_unsaved request) in
       let! flushed := db_commit db in
       let! new_user := db_refresh db (List.last flushed (signed_up_row_unsaved request)) in
       ret (SignupResponse.mk "success" "User created successfully" (details_of new_user)))
      (fun e =>
         if is_IntegrityError e
         then Some (let! _ := db_rollback db in
                    raise (HTTPException HTTP_400_BAD_REQUEST "Error while creating user" []))
         else None)
      (concurrent_commits racing w).1.
Proof.
  intros Hon Hfree. unfold sign_up, bind at 1, query_first.
  rewrite Hon, (find_email_free _ _ Hfree). reflexivity.
Qed.

(** The sessions after [db.add(new_user)] and then a commit or a rollback:
    nothing is pending on [db]. *)
Lemma sign_up_steps (request : UserSignupRequest.t) (db : positive)
    (racing : list UserModel) (w : World) (s : Session) :
  db_online w = true ->
  sessions w !! db = Some s ->
  email_taken (users w) (UserSignupRequest.email request) = false ->
  exists w',
    sessions w' !! db = Some (mkSession [] (close_calls s)) /\
    db_online w' = db_online w /\
    clock w' = clock w /\ heap w' = heap w /\ log w' = log w /\
    match insert_all (table_at_commit racing w) (pending s ++ [signed_up_row_unsaved request]) with
    | None =>
        users w' = table_at_commit racing w /\
        sign_up request db racing w =
          (w', inl (HTTPException HTTP_400_BAD_REQUEST "Error while creating user" []))
    | Some rows' =>
        users w' = rows' /\
        sign_up request db racing w =
          (w', match List.find
                       (fun r => bool_decide
                          (id r = id (List.last (drop (length (table_at_commit racing w)) rows')
                                        (signed_up_row_unsaved request))))
                       rows' with
               | Some r => inr (SignupResponse.mk "success" "User created successfully"
                                  (details_of r))
               | None => inl InvalidRequestError
               end)
    end.
Proof.
  intros Hon Hs Hfree. rewrite (sign_up_free _ _ _ _ Hon Hfree).
  unfold table_at_commit.
  set (w1 := (concurrent_commits racing w).1).
  assert (Hon1 : db_online w1 = true) by exact Hon.
  assert (Hs1 : sessions w1 !! db = Some s) by exact Hs.
  assert (Hc1 : clock w1 = clock w) by reflexivity.
  assert (Hh1 : heap w1 = heap w) by reflexivity.
  assert (Hl1 : log w1 = log w) by reflexivity.
  assert (Ho1 : db_online w1 = db_online w) by reflexivity.
  clearbody w1. rewrite <- Hc1, <- Hh1, <- Hl1.
  unfold try_except, bind, db_add, db_commit, db_refresh, query_first, bind, pending_of.
  cbn [sessions set_sessions db_online users fst snd]. rewrite Hon1.
  rewrite lookup_alter_eq, Hs1. cbn [fmap option_fmap option_map pending].
  set (w_add := set_sessions
                  (alter (fun s0 => mkSession (pending s0 ++ [signed_up_row_unsaved request])
                                      (close_calls s0)) db (sessions w1)) w1).
  set (w_clear := set_sessions
                    (alter (fun s0 => mkSession [] (close_calls s0)) db (sessions w_add)) w_add).
  assert (Hclear : sessions w_clear !! db = Some (mkSession [] (close_calls s))).
  { unfold w_clear, w_add. cbn. rewrite !lookup_alter_eq, Hs1. reflexivity. }
  destruct (insert_all (users w1) (pending s ++ [signed_up_row_unsaved request]))
    as [rows'|] eqn:Hins.
  - exists (set_users rows' w_clear).
    split; [exact Hclear|]. split; [exact Ho1|]. repeat (split; [reflexivity|]).
    unfold w_add. cbn [db_online set_users set_sessions users]. rewrite Hon1.
    destruct (List.find _ rows'); reflexivity.
  - exists w_clear.
    split; [exact Hclear|]. split; [exact Ho1|]. repeat (split; [reflexivity|]). reflexivity.
Qed.

Lemma sign_up_commits (request : UserSignupRequest.t) (db : positive)
    (racing : list UserModel) (w : World) (n : nat) :
  db_online w = true ->
  sessions w !! db = Some (mkSession [] n) ->
  email_taken (table_at_commit racing w) (UserSignupRequest.email request) = false ->
  Forall (fun r => id r <> Some (next_id (table_at_commit racing w)))
    (table_at_commit racing w) ->
  (sign_up request db racing w).2 =
    inr (SignupResponse.mk "success" "User created successfully"
           (UserDetails.mk (Some (next_id (table_at_commit racing w)))
              (UserSignupRequest.name request) (UserSignupRequest.email request))) /\
  users (sign_up request db racing w).1 =
    table_at_commit racing w
      ++ [signed_up_row request (next_id (table_at_commit racing w))] /\
  pending_of db (sign_up request db racing w).1 = [] /\
  db_online (sign_up request db racing w).1 = true /\
  sessions (sign_up request db racing w).1 !! db = Some (mkSession [] n).
Proof.
  intros Hon Hs Hfree Hpk.
  destruct (concurrent_commits_grows racing w) as [more Hmore].
  assert (Hpre : email_taken (users w) (UserSignupRequest.email request) = false).
  { apply (email_free_before _ more). rewrite <- Hmore. exact Hfree. }
  destruct (sign_up_steps request db racing w _ Hon Hs Hpre)
    as (w' & Hsess & Hon' & _ & _ & _ & Hrun).
  set (rows := table_at_commit racing w) in *.
  set (k := next_id rows) in *.
  assert (Hins : insert_all rows (pending (mkSession [] n) ++ [signed_up_row_unsaved request])
                 = Some (rows ++ [signed_up_row request k])).
  { cbn [pending app insert_all]. unfold store_insert.
    change (email (signed_up_row_unsaved request)) with (UserSignupRequest.email request).
    rewrite Hfree. reflexivity. }
  rewrite Hins in Hrun. destruct Hrun as [Husers Hrun].
  rewrite drop_app_length in Hrun. cbn [List.last] in Hrun.
  rewrite (find_app_last _ rows (signed_up_row request k)) in Hrun.
  - rewrite Hrun. cbn [fst snd]. split; [reflexivity|]. split; [exact Husers|].
    split; [unfold pending_of; rewrite Hsess; reflexivity|].
    split; [rewrite Hon'; exact Hon|]. exact Hsess.
  - eapply Forall_impl; [exact Hpk|]. intros r Hr. cbn [signed_up_row id].
    apply bool_decide_eq_false_2. exact Hr.
  - apply bool_decide_eq_true_2. reflexivity.
Qed.

(** A sign-up for an email nobody holds when the commit runs, on a session
    with nothing pending and a store that hands out an unused primary key:
    the table gains exactly one row, with the hashed password and not the
    password of the request, the session has nothing pending, and the
    response is the summary of the new row. *)
Theorem sign_up_success (request : UserSignupRequest.t) (db : positive)
    (racing : list UserModel) (w : World) (n : nat) :
  db_online w = true ->
  sessions w !! db = Some (mkSession [] n) ->
  email_taken (table_at_commit racing w) (UserSignupRequest.email request) = false ->
  Forall (fun r => id r <> Some (next_id (table_at_commit racing w)))
    (table_at_commit racing w) ->
  (sign_up request db racing w).2 =
    inr (SignupResponse.mk "success" "User created successfully"
           (UserDetails.mk (Some (next_id (table_at_commit racing w)))
              (UserSignupRequest.name request) (UserSignupRequest.email request))) /\
  users (sign_up request db racing w).1 =
    table_at_commit racing w
      ++ [signed_up_row request (next_id (table_at_commit racing w))] /\
  pending_of db (sign_up request db racing w).1 = [].
Proof.
  intros Hon Hs Hfree Hpk.
  destruct (sign_up_commits request db racing w n Hon Hs Hfree Hpk) as (Hr & Hu & Hp & _).
  auto.
Qed.

(** Run alone, on a session with nothing pending, [sign_up] never gives the
    answer of its [IntegrityError] handler: when the query of line 59 finds
    nobody, the commit cannot meet the email in the table. *)
Theorem sign_up_alone (request : UserSignupRequest.t) (db : positive) (w : World) (n : nat) :
  sessions w !! db = Some (mkSession [] n) ->
  (sign_up request db [] w).2 <>
    inl (HTTPException HTTP_400_BAD_REQUEST "Error while creating user" []).
Proof.
  intros Hs.
  destruct (db_online w) eqn:Hon.
  2:{ unfold sign_up, bind, query_first. rewrite Hon. discriminate. }
  destruct (email_taken (users w) (UserSignupRequest.email request)) eqn:Hpre.
  { destruct (find_email_taken _ _ Hpre) as [u Hu].
    unfold sign_up, bind, query_first. rewrite Hon, Hu. cbn. intros H. inversion H. }
  destruct (sign_up_steps request db [] w _ Hon Hs Hpre) as (w' & _ & _ & _ & _ & _ & Hrun).
  change (table_at_commit [] w) with (users w) in Hrun.
  cbn [pending app insert_all] in Hrun. unfold store_insert in Hrun.
  change (email (signed_up_row_unsaved request)) with (UserSignupRequest.email request) in Hrun.
  rewrite Hpre in Hrun. destruct Hrun as [_ Hrun]. rewrite Hrun.
  cbn [snd]. destruct (List.find _ _); discriminate.
Qed.

(** ** Logging in *)

Lemma email_free_forall (rows : list UserModel) (e : string) :
  email_taken rows e = false ->
  Forall (fun u => String.eqb (email u) e = false) rows.
Proof.
  unfold email_taken. induction rows as [|r rows IH]; cbn; intros H; [constructor|].
  apply orb_false_iff in H as [Hr Hrows]. constructor; [exact Hr|exact (IH Hrows)].
Qed.

(** The successful path of [login]. *)
Lemma login_found (request : UserLoginRequest.t) (db : positive) (w : World)
    (user : UserModel) (k a : string) (sig : N) :
  SECRET_KEY cfg = Some k -> ALGORITHM cfg = Some a -> algorithm_supported a = true ->
  db_online w = true ->
  List.find (fun u => String.eqb (email u) (UserLoginRequest.email request)) (users w)
    = Some user ->
  verify_password (UserLoginRequest.password request) (password user) = true ->
  sign_header_and_claims a k (issued_claims {[ "sub" := PStr (str_id (id user)) ]} (clock w))
    = Some sig ->
  (login request db w).2 =
    inr (LoginResponse.mk "success" "User logged in successfully"
           (Compact a (issued_claims {[ "sub" := PStr (str_id (id user)) ]} (clock w)) sig)
           "bearer" (details_of user)).
Proof.
  intros Hk Ha Hh Hon Hfind Hpw Hsign. unfold login, bind, query_first.
  rewrite Hon, Hfind, Hpw. cbn [negb]. cbv beta iota.
  unfold dict_new. cbv beta iota zeta.
  set (l := fresh (dom (heap w))).
  set (w1 := set_heap _ w).
  assert (Hl : heap w1 !! l = Some {[ "sub" := PStr (str_id (id user)) ]})
    by apply lookup_insert_eq.
  pose proof (create_token_returns l _ w1 k a sig Hk Ha Hh Hl) as Hret.
  change (clock w1) with (clock w) in Hret.
  rewrite issued_claims_subject in Hret, Hsign.
  specialize (Hret (subject_claims_serializable _ _) Hsign).
  rewrite (surjective_pairing (create_token l w1)), Hret.
  rewrite issued_claims_subject. reflexivity.
Qed.

(** Sign-up then login. When the hasher verifies a password against its own
    hash and the configured key signs under the configured, supported
    algorithm, the user a sign-up created (as in the previous theorem) logs
    in with the email and the password of the sign-up, on any session, and
    gets a token and the same summary the sign-up answered. *)
Theorem sign_up_then_login (request : UserSignupRequest.t) (db db' : positive)
    (racing : list UserModel) (w : World) (n : nat) (k a : string) :
  SECRET_KEY cfg = Some k -> ALGORITHM cfg = Some a -> algorithm_supported a = true ->
  key_signs a k ->
  verify_password (UserSignupRequest.password request)
    (hash_password (UserSignupRequest.password request)) = true ->
  db_online w = true ->
  sessions w !! db = Some (mkSession [] n) ->
  email_taken (table_at_commit racing w) (UserSignupRequest.email request) = false ->
  Forall (fun r => id r <> Some (next_id (table_at_commit racing w)))
    (table_at_commit racing w) ->
  exists tok,
    (login (UserLoginRequest.mk (UserSignupRequest.email request)
              (UserSignupRequest.password request))
       db' (sign_up request db racing w).1).2 =
      inr (LoginResponse.mk "success" "User logged in successfully" tok "bearer"
             (UserDetails.mk (Some (next_id (table_at_commit racing w)))
                (UserSignupRequest.name request) (UserSignupRequest.email request))).
Proof.
  intros Hk Ha Hh Hsigns Hverify Hon Hs Hfree Hpk.
  destruct (sign_up_commits request db racing w n Hon Hs Hfree Hpk) as (_ & Hu & _ & Hon' & _).
  set (row := signed_up_row request (next_id (table_at_commit racing w))).
  destruct (Hsigns (issued_claims {[ "sub" := PStr (str_id (id row)) ]}
                      (clock (sign_up request db racing w).1))) as [sig Hsig].
  eexists.
  rewrite (login_found _ db' _ row k a sig Hk Ha Hh Hon').
  - reflexivity.
  - rewrite Hu. apply find_app_last.
    + exact (email_free_forall _ _ Hfree).
    + cbn. apply String.eqb_refl.
  - exact Hverify.
  - exact Hsig.
Qed.

Lemma jws_verify_inv (t : token) (key algorithm : option string) (claims : pydict) :
  jws_verify t key [algorithm] = inr claims ->
  exists a k sig, t = Compact a claims sig /\
                  key = Some k /\ algorithm = Some a /\
                  sig_matches_keys a k claims sig = inr true.
Proof.
  unfold jws_verify. destruct t as [alg c sig|raw]; [|discriminate].
  destruct (bool_decide (Some alg ∈ [algorithm])) eqn:Halg; cbn [negb]; [|discriminate].
  apply bool_decide_eq_true_1, list_elem_of_singleton in Halg.
  destruct key as [k|]; [|discriminate].
  destruct (sig_matches_keys alg k c sig) as [e|[|]] eqn:Hm; try discriminate.
  intros H. inversion H; subst. exists alg, k, sig. auto.
Qed.

Lemma validate_claims_inv (claims : pydict) (now : Z) :
  validate_claims claims now = inr tt ->
  (forall e, claims !! "exp" = Some (PInt e) -> now <= e) /\
  (forall v, claims !! "sub" = Some v -> exists s, v = PStr s).
Proof.
  unfold validate_claims. cbn [first_error].
  destruct (validate_iat claims); [discriminate|].
  destruct (validate_nbf claims now); [discriminate|].
  destruct (validate_exp claims now) eqn:Hexp; [discriminate|].
  destruct (validate_aud claims); [discriminate|].
  destruct (validate_sub claims) eqn:Hsub; [discriminate|].
  intros _. split.
  - intros e He. unfold validate_exp in Hexp. rewrite He in Hexp. cbn in Hexp.
    destruct (Z.ltb_spec e now); [discriminate|lia].
  - intros v Hv. unfold validate_sub in Hsub. rewrite Hv in Hsub.
    destruct v; try discriminate. eauto.
Qed.

(** A user [get_current_user] returns is a row of the table. *)
Lemma get_current_user_row (t : token) (db : positive) (w w' : World) (u : UserModel) :
  get_current_user t db w = (w', inr u) -> In u (users w).
Proof.
  unfold get_current_user, bind. rewrite get_current_user_decode_eq.
  destruct ((jwt_decode t (SECRET_KEY cfg) [ALGORITHM cfg] w).2) as [e|payload];
    [discriminate|].
  assert (Hlookup : forall v, get_current_user_lookup db v w = (w', inr u) ->
                              In u (users w)).
  { intros v. rewrite get_current_user_lookup_eq.
    destruct (db_online w); [|discriminate].
    destruct (List.find _ (users w)) as [u'|] eqn:Hfind; [|discriminate].
    intros H. inversion H; subst. exact (proj1 (List.find_some _ _ Hfind)). }
  destruct (payload !! "sub") as [[]|]; try discriminate; apply Hlookup.
Qed.

(** [get_current_user] returns a user only for a token that names the
    configured algorithm, whose signature python-jose accepts under the
    configured key, whose ["sub"] is a string the store matches with the id
    of that user, a row of the table, and whose ["exp"], when it has one,
    is not before the whole seconds of the clock; the world is then left as
    it was. *)
Theorem get_current_user_sound (t : token) (db : positive) (w w' : World) (u : UserModel) :
  get_current_user t db w = (w', inr u) ->
  w' = w /\ db_online w = true /\ In u (users w) /\
  exists a k claims sig s kid,
    t = Compact a claims sig /\
    SECRET_KEY cfg = Some k /\ ALGORITHM cfg = Some a /\
    sig_matches_keys a k claims sig = inr true /\
    claims !! "sub" = Some (PStr s) /\
    id u = Some kid /\ id_matches kid (PStr s) = true /\
    (forall e, claims !! "exp" = Some (PInt e) -> timegm (clock w) <= e).
Proof.
  unfold get_current_user, bind. rewrite get_current_user_decode_eq, jwt_decode_eq.
  cbn [snd].
  destruct (jws_verify t (SECRET_KEY cfg) [ALGORITHM cfg]) as [e|claims] eqn:Hv;
    [discriminate|].
  destruct (validate_claims claims (timegm (clock w))) as [e|[]] eqn:Hc; [discriminate|].
  apply jws_verify_inv in Hv as (a & k & sig & -> & Hk & Ha & Hm).
  apply validate_claims_inv in Hc as [Hexp Hsub].
  destruct (claims !! "sub") as [v|] eqn:Hs; [|discriminate].
  destruct (Hsub v eq_refl) as [s ->].
  rewrite get_current_user_lookup_eq.
  destruct (db_online w) eqn:Hon; [|discriminate].
  destruct (List.find _ (users w)) as [u'|] eqn:Hfind; [|discriminate].
  intros H. inversion H; subst.
  apply List.find_some in Hfind as [Hin Hm'].
  destruct (id u) as [kid|] eqn:Hid; [|discriminate].
  repeat split; auto. exists a, k, claims, sig, s, kid. repeat split; auto.
Qed.

Lemma set_log_nil (w : World) : set_log (log w ++ []) w = w.
Proof. destruct w. unfold set_log. cbn. rewrite app_nil_r. reflexivity. Qed.

(** [get_current_user] writes to nothing but the log: a verification that
    succeeds logs nothing, one that fails logs at least one entry, and the
    clock, the heap, the table and the sessions are as they were. *)
Theorem get_current_user_only_logs (t : token) (db : positive) (w : World) :
  exists entries,
    (get_current_user t db w).1 = set_log (log w ++ entries) w /\
    match (get_current_user t db w).2 with
    | inr _ => entries = []
    | inl _ => entries <> []
    end.
Proof.
  unfold get_current_user, bind. rewrite get_current_user_decode_eq.
  destruct ((jwt_decode t (SECRET_KEY cfg) [ALGORITHM cfg] w).2) as [e|payload].
  { eexists. split; [reflexivity|discriminate]. }
  assert (Hlookup : forall v, exists entries,
            (get_current_user_lookup db v w).1 = set_log (log w ++ entries) w /\
            match (get_current_user_lookup db v w).2 with
            | inr _ => entries = []
            | inl _ => entries <> []
            end).
  { intros v. rewrite get_current_user_lookup_eq.
    destruct (db_online w); [|eexists; split; [reflexivity|discriminate]].
    destruct (List.find _ (users w)).
    - exists []. split; [symmetry; apply set_log_nil|reflexivity].
    - eexists. split; [reflexivity|discriminate]. }
  destruct (payload !! "sub") as [[]|]; try apply Hlookup;
    eexists; (split; [reflexivity|discriminate]).
Qed.

(** [GET /check-token] answers the 401 ["Not authenticated"] of
    [oauth2_scheme], the 401 [credentials_exception] of [get_current_user],
    or ["Token is valid"] with the id, name and email of a row of the
    table; without an [Authorization] header it is the first, and nothing
    is touched. *)
Theorem check_token_outcomes (authorization : option string) (db : positive) (w : World) :
  check_token_route None db w = (w, inl not_authenticated) /\
  match (check_token_route authorization db w).2 with
  | inl e => e = not_authenticated \/ e = credentials_exception
  | inr r =>
      exists u, In u (users w) /\
                r = CheckTokenResponse.mk "success" "Token is valid"
                      (UserDetails.mk (id u) (name u) (email u))
  end.
Proof.
  split; [reflexivity|].
  unfold check_token_route, bind, lift.
  destruct (oauth2_scheme authorization) as [e|token] eqn:Hscheme.
  - left. unfold oauth2_scheme in Hscheme.
    destruct (get_authorization_scheme_param authorization) as [scheme param].
    destruct (_ || _); congruence.
  - destruct (get_current_user (read_token token) db w) as [w' [e|u]] eqn:Hrun; cbn [snd].
    + right. apply (get_current_user_fails (read_token token) db w). rewrite Hrun.
      reflexivity.
    + exists u. split; [exact (get_current_user_row _ _ _ _ _ Hrun)|reflexivity].
Qed.

Lemma find_by_key (P : UserModel -> bool) (rows : list UserModel) (user : UserModel) :
  In user rows -> P user = true ->
  (forall u', In u' rows -> P u' = true -> u' = user) ->
  List.find P rows = Some user.
Proof.
  intros Hin HP Huniq. destruct (List.find P rows) as [u'|] eqn:Hfind.
  - apply List.find_some in Hfind as [Hin' HP']. rewrite (Huniq u' Hin' HP'). reflexivity.
  - rewrite (List.find_none _ _ Hfind user Hin) in HP. discriminate.
Qed.

(** Login then check-token. When the configured key signs the claims of the
    login under the configured, supported algorithm and python-jose accepts
    that signature under it, and the store matches an id with a string
    exactly when the string is [str] of that id, the token a login returned,
    presented before the expiry it encodes to a world where the user is
    still the one row with that id, makes [get_current_user] return that
    user and log nothing, [check_token] answers the summary the login
    gave, and so does [GET /check-token] for an [Authorization] header whose
    bearer string reads as the token. *)
Theorem login_then_check_token (request : UserLoginRequest.t) (db db' : positive)
    (w w' : World) (user : UserModel) (kid : Z) (k a : string) (sig : N) :
  SECRET_KEY cfg = Some k -> ALGORITHM cfg = Some a -> algorithm_supported a = true ->
  sign_header_and_claims a k (issued_claims {[ "sub" := PStr (str_id (id user)) ]} (clock w))
    = Some sig ->
  sig_matches_keys a k (issued_claims {[ "sub" := PStr (str_id (id user)) ]} (clock w)) sig
    = inr true ->
  (forall k1 k2, id_matches k1 (PStr (pretty k2)) = bool_decide (k1 = k2)) ->
  db_online w = true ->
  List.find (fun u => String.eqb (email u) (UserLoginRequest.email request)) (users w)
    = Some user ->
  verify_password (UserLoginRequest.password request) (password user) = true ->
  id user = Some kid ->
  db_online w' = true ->
  In user (users w') ->
  (forall u', In u' (users w') -> id u' = Some kid -> u' = user) ->
  clock w' < (timegm (clock w) + 5400) * 1000000 ->
  exists r,
    (login request db w).2 = inr r /\
    get_current_user (LoginResponse.access_token r) db' w' = (w', inr user) /\
    check_token user =
      CheckTokenResponse.mk "success" "Token is valid" (LoginResponse.user_details r) /\
    forall authorization bearer,
      oauth2_scheme authorization = inr bearer ->
      read_token bearer = LoginResponse.access_token r ->
      check_token_route authorization db' w' =
        (w', inr (CheckTokenResponse.mk "success" "Token is valid"
                    (LoginResponse.user_details r))).
Proof.
  intros Hk Ha Hh Hsign Hmatch Hcmp Hon Hfind Hpw Hid Hon' Hin Hpk Hbefore.
  eexists. split; [exact (login_found request db w user k a sig Hk Ha Hh Hon Hfind Hpw Hsign)|].
  cbn [LoginResponse.access_token LoginResponse.user_details].
  assert (Hrun : get_current_user
                   (Compact a (issued_claims {[ "sub" := PStr (str_id (id user)) ]} (clock w))
                      sig) db' w' = (w', inr user)).
  { unfold get_current_user, bind.
    rewrite get_current_user_decode_eq, jwt_decode_eq. cbn [snd].
    rewrite Hk, Ha, (jws_verify_accepted _ _ _ _ Hmatch), issued_claims_subject.
    rewrite validate_subject_claims by (apply timegm_before in Hbefore; lia).
    change (({[ "exp" := PInt (timegm (clock w) + 5400) ]}
             ∪ {[ "sub" := PStr (str_id (id user)) ]} : pydict) !! "sub")
      with (Some (PStr (str_id (id user)))).
    cbv beta iota. rewrite get_current_user_lookup_eq, Hon'.
    rewrite (find_by_key _ (users w') user Hin).
    - reflexivity.
    - rewrite Hid. cbn [str_id]. rewrite Hcmp. apply bool_decide_eq_true_2. reflexivity.
    - intros u' Hin' Hm. apply Hpk; [exact Hin'|].
      destruct (id u') as [k'|]; [|discriminate].
      rewrite Hid in Hm. cbn [str_id] in Hm. rewrite Hcmp in Hm.
      apply bool_decide_eq_true_1 in Hm. congruence. }
  split; [exact Hrun|]. split; [reflexivity|].
  intros authorization bearer Hscheme Hread.
  unfold check_token_route, bind, lift. rewrite Hscheme, Hread, Hrun. reflexivity.
Qed.

(** When the configured key signs the claims [{"sub": s}] with their expiry
    under the configured, supported algorithm and python-jose accepts that
    signature under it, the token issued is accepted through the whole
    second of its expiry and no longer: verification yields the subject
    exactly when the whole seconds of the clock are at most those of the
    issuance plus 5400. *)
Theorem subject_token_window (s k a : string) (sig : N) (data : positive) (w : World) :
  SECRET_KEY cfg = Some k -> ALGORITHM cfg = Some a -> algorithm_supported a = true ->
  heap w !! data = Some {[ "sub" := PStr s ]} ->
  sign_header_and_claims a k (issued_claims {[ "sub" := PStr s ]} (clock w)) = Some sig ->
  sig_matches_keys a k (issued_claims {[ "sub" := PStr s ]} (clock w)) sig = inr true ->
  exists tok,
    (create_token data w).2 = inr tok /\
    forall w', (get_current_user_decode tok w').2 = inr (PStr s) <->
               timegm (clock w') <= timegm (clock w) + 5400.
Proof.
  intros Hk Ha Hh Hd Hsign Hmatch.
  pose proof (create_token_returns data _ w k a sig Hk Ha Hh Hd) as Hret.
  rewrite issued_claims_subject in Hret, Hsign, Hmatch.
  specialize (Hret (subject_claims_serializable _ _) Hsign).
  eexists. split; [exact Hret|].
  intros w'. rewrite get_current_user_decode_eq, jwt_decode_eq. cbn [snd].
  rewrite Hk, Ha, (jws_verify_accepted _ _ _ _ Hmatch).
  destruct (Z.le_gt_cases (timegm (clock w')) (timegm (clock w) + 5400)) as [Hle|Hgt].
  - rewrite (validate_subject_claims _ _ _ Hle). split; [intros _; exact Hle|reflexivity].
  - assert (Hexp : ({[ "exp" := PInt (timegm (clock w) + 5400) ]}
                      ∪ {[ "sub" := PStr s ]} : pydict) !! "exp"
                   = Some (PInt (timegm (clock w) + 5400))) by reflexivity.
    destruct (validate_claims_expired _ _ (timegm (clock w')) Hexp) as [err Herr]; [lia|].
    rewrite Herr. split; [discriminate|lia].
Qed.

(** ** The store out of reach *)

(** When the store cannot be reached, [login] and [sign_up] let the error
    of the query through as it is and change nothing, while
    [get_current_user], for a token it decoded, logs it and raises the 401
    [credentials_exception]. *)
Theorem store_unreachable (request : UserLoginRequest.t) (srequest : UserSignupRequest.t)
    (racing : list UserModel) (t : token) (user_id : pyval) (db : positive) (w : World) :
  db_online w = false ->
  login request db w = (w, inl OperationalError) /\
  sign_up srequest db racing w = (w, inl OperationalError) /\
  (get_current_user_decode t w = (w, inr user_id) ->
   get_current_user t db w =
     (set_log (log w ++ [exception_db_query_failed user_id OperationalError]) w,
      inl credentials_exception)).
Proof.
  intros Hoff. split; [|split].
  - unfold login, bind, query_first. rewrite Hoff. reflexivity.
  - unfold sign_up, bind, query_first. rewrite Hoff. reflexivity.
  - intros Hdec. unfold get_current_user, bind. rewrite Hdec.
    rewrite get_current_user_lookup_eq, Hoff. reflexivity.
Qed.

(** ** A whole sign-up request *)

(** [POST /sign-up] with the session [get_db] provides: for an email nobody
    holds when the commit runs and a store that hands out an unused primary
    key, the request answers the summary of the new row, the table gains
    that one row, and the session of the request ends closed once with
    nothing pending. *)
Theorem sign_up_request (request : UserSignupRequest.t) (racing : list UserModel) (w : World) :
  db_online w = true ->
  email_taken (table_at_commit racing w) (UserSignupRequest.email request) = false ->
  Forall (fun r => id r <> Some (next_id (table_at_commit racing w)))
    (table_at_commit racing w) ->
  (with_db (fun db => sign_up request db racing) w).2 =
    inr (SignupResponse.mk "success" "User created successfully"
           (UserDetails.mk (Some (next_id (table_at_commit racing w)))
              (UserSignupRequest.name request) (UserSignupRequest.email request))) /\
  users (with_db (fun db => sign_up request db racing) w).1 =
    table_at_commit racing w
      ++ [signed_up_row request (next_id (table_at_commit racing w))] /\
  sessions (with_db (fun db => sign_up request db racing) w).1 !! fresh (dom (sessions w))
    = Some (mkSession [] 1).
Proof.
  intros Hon Hfree Hpk.
  set (db := fresh (dom (sessions w))).
  set (w1 := set_sessions (<[db := mkSession [] 0]> (sessions w)) w).
  assert (Hs1 : sessions w1 !! db = Some (mkSession [] 0)) by apply lookup_insert_eq.
  change (table_at_commit racing w) with (table_at_commit racing w1) in *.
  destruct (sign_up_commits request db racing w1 0 Hon Hs1 Hfree Hpk)
    as (Hr & Hu & _ & _ & Hs2).
  unfold with_db. cbn [get_db]. unfold SessionLocal. cbv zeta. fold db. fold w1.
  destruct (sign_up request db racing w1) as [w2 r].
  cbn [fst snd] in Hr, Hu, Hs2. subst r.
  cbn [get_db db_close fst snd users set_sessions sessions].
  split; [reflexivity|]. split; [exact Hu|].
  rewrite lookup_alter_eq, Hs2. reflexivity.
Qed.

(** ** More on issuance and verification *)

(** For a dictionary that exists, [create_token] returns a token exactly
    when [SECRET_KEY] is set, [ALGORITHM] is set to an algorithm python-jose
    supports, the claims with their expiry serialize and the key signs
    them; otherwise it raises, at the call. *)
Theorem create_token_returns_iff (data : positive) (d : pydict) (w : World) :
  heap w !! data = Some d ->
  (exists tok, (create_token data w).2 = inr tok) <->
  (exists k a, SECRET_KEY cfg = Some k /\ ALGORITHM cfg = Some a /\
               algorithm_supported a = true /\
               json_serializable (issued_claims d (clock w)) = true /\
               is_Some (sign_header_and_claims a k (issued_claims d (clock w)))).
Proof.
  intros Hd. split.
  - intros [tok Htok]. rewrite (create_token_eq _ _ _ Hd) in Htok. cbn [snd] in Htok.
    apply jws_sign_inv in Htok as (a & k & sig & Ha & Hk & Hh & Hj & Hs & _).
    exists k, a. repeat split; eauto.
  - intros (k & a & Hk & Ha & Hh & Hj & [sig Hs]). eexists.
    exact (create_token_returns data d w k a sig Hk Ha Hh Hd Hj Hs).
Qed.

Lemma create_token_world (data : positive) (w : World) :
  exists h, (create_token data w).1 = set_heap h w.
Proof.
  destruct (heap w !! data) as [d|] eqn:Hd.
  - rewrite (create_token_eq _ _ _ Hd). eexists. reflexivity.
  - rewrite (create_token_dangling _ _ Hd). exists (heap w). destruct w. reflexivity.
Qed.

(** [login] writes to nothing but the heap of dictionaries, where it leaves
    every object that existed as it was: the table, the log, the sessions
    and the clock are untouched, and when it answers with an
    [HTTPException] (the 404 or the 401) it has changed nothing at all. *)
Theorem login_touches_only_heap (request : UserLoginRequest.t) (db : positive) (w : World) :
  users (login request db w).1 = users w /\
  log (login request db w).1 = log w /\
  sessions (login request db w).1 = sessions w /\
  clock (login request db w).1 = clock w /\
  (forall l, l ∈ dom (heap w) -> heap (login request db w).1 !! l = heap w !! l) /\
  (forall c d h, (login request db w).2 = inl (HTTPException c d h) ->
                 (login request db w).1 = w).
Proof.
  unfold login, bind, query_first.
  destruct (db_online w); [|repeat split; discriminate].
  destruct (List.find _ (users w)) as [user|]; [|repeat split; reflexivity].
  destruct (verify_password _ _); cbn [negb]; [|repeat split; reflexivity].
  cbv beta iota. unfold dict_new. cbv beta iota zeta.
  set (l0 := fresh (dom (heap w))).
  set (w1 := set_heap (<[l0 := _]> (heap w)) w).
  assert (Hl0 : heap w1 !! l0 = Some {[ "sub" := PStr (str_id (id user)) ]})
    by apply lookup_insert_eq.
  pose proof (create_token_eq l0 _ w1 Hl0) as Heq.
  assert (Hw2 : (create_token l0 w1).1 = (create_token l0 w1).1) by reflexivity.
  assert (Hr : (create_token l0 w1).2 = (create_token l0 w1).2) by reflexivity.
  rewrite Heq in Hw2 at 2. rewrite Heq in Hr at 2. clear Heq.
  destruct (create_token l0 w1) as [w2 r]. cbn [fst snd] in Hw2, Hr.
  assert (Hfields : users w2 = users w /\ log w2 = log w /\ sessions w2 = sessions w /\
                    clock w2 = clock w) by (rewrite Hw2; repeat split; reflexivity).
  assert (Hheap : forall l, l ∈ dom (heap w) -> heap w2 !! l = heap w !! l).
  { intros l Hl. rewrite Hw2. cbn [heap set_heap].
    assert (Hne0 : l0 <> l) by (intros <-; exact (is_fresh (dom (heap w)) Hl)).
    assert (Hl1 : l ∈ dom (<[l0 := {[ "sub" := PStr (str_id (id user)) ]}]> (heap w)))
      by (rewrite dom_insert_L; apply elem_of_union_r, Hl).
    rewrite lookup_insert_ne
      by (intros Heq; rewrite <- Heq in Hl1; exact (is_fresh _ Hl1)).
    apply lookup_insert_ne, Hne0. }
  destruct Hfields as (Hu & Hlg & Hs & Hc).
  clear Hw2. destruct r as [e|tok]; unfold ret; cbn [fst snd];
    (repeat split; try assumption; try discriminate).
  intros c d h Herr. exfalso. inversion Herr; subst. symmetry in Hr.
  rename Hr into Hsign. unfold jws_sign in Hsign.
  destruct (ALGORITHM cfg) as [alg|]; [|discriminate].
  destruct (negb (algorithm_supported alg)); [discriminate|].
  destruct (negb (json_serializable _)); [discriminate|].
  destruct (SECRET_KEY cfg) as [key|]; [|discriminate].
  destruct (sign_header_and_claims alg key _); discriminate.
Qed.

(** A token whose signature python-jose does not accept under the
    configured key is refused inside [jwt.decode], whatever it claims and
    whatever algorithm it names: [get_current_user] logs that one failure,
    of the [Malformed] kind, raises the 401 [credentials_exception] and does
    not query the store. *)
Theorem foreign_signature_rejected (alg k : string) (claims : pydict) (sig : N)
    (db : positive) (w : World) :
  SECRET_KEY cfg = Some k ->
  sig_matches_keys alg k claims sig <> inr true ->
  exists e,
    get_current_user (Compact alg claims sig) db w =
      (set_log (log w ++ [decode_failure_entry e]) w, inl credentials_exception) /\
    failure_kind (decode_failure_entry e) = Malformed.
Proof.
  intros Hk Hsig. unfold get_current_user, bind.
  rewrite get_current_user_decode_eq, jwt_decode_eq. cbn [snd].
  destruct (jws_verify (Compact alg claims sig) (SECRET_KEY cfg) [ALGORITHM cfg])
    as [e|c] eqn:Hv.
  - exists e. split; [reflexivity|apply decode_failure_kind].
  - apply jws_verify_inv in Hv as (a & k' & sig' & Ht & Hk' & _ & Hm).
    inversion Ht; subst. rewrite Hk in Hk'. inversion Hk'; subst. contradiction.
Qed.

End Program.

(** * The program at concrete inputs *)

(** The caller's dictionary at location 1 of the demo world is unchanged by
    an issuance. *)
Lemma create_token_keeps_input_witness :
  heap demo_world !! 1%positive = Some {[ "sub" := PStr "42" ]} /\
  heap (create_token (E:=demo) demo_cfg 1 demo_world).1 !! 1%positive
    = Some {[ "sub" := PStr "42" ]}.
Proof.
  assert (H : heap demo_world !! 1%positive = Some {[ "sub" := PStr "42" ]})
    by reflexivity.
  split; [exact H|].
  exact (create_token_keeps_input (E:=demo) demo_cfg 1 _ demo_world H).
Defined.

Lemma demo_issue :
  (create_token (E:=demo) demo_cfg 1 demo_world).2 = inr demo_token.
Proof. vm_compute. reflexivity. Qed.

(** The token issued at the epoch expires at second 5400. *)
Lemma create_token_expiry_witness :
  heap demo_world !! 1%positive = Some {[ "sub" := PStr "42" ]} /\
  (create_token (E:=demo) demo_cfg 1 demo_world).2 = inr demo_token /\
  exp_of demo_token = Some (PInt 5400).
Proof.
  assert (H : heap demo_world !! 1%positive = Some {[ "sub" := PStr "42" ]})
    by reflexivity.
  split; [exact H|]. split; [exact demo_issue|].
  exact (proj1 (create_token_expiry (E:=demo) demo_cfg 1 _ demo_world demo_token
                  H demo_issue)).
Defined.


(** Issued at the epoch, the token is still accepted half a second after
    issuance plus 90 minutes: the first [try] yields the subject and the
    whole of [get_current_user] the user. *)
Lemma accepted_after_ttl :
  (create_token (E:=demo) demo_cfg 1 demo_world).2 = inr demo_token /\
  clock demo_world + timedelta_minutes ACCESS_TOKEN_EXPIRE_MINUTES
    < clock (set_clock 5400500000 demo_world) /\
  get_current_user_decode (E:=demo) demo_cfg demo_token (set_clock 5400500000 demo_world)
    = (set_clock 5400500000 demo_world, inr (PStr "42")) /\
  get_current_user (E:=demo) demo_cfg demo_token 1 (set_clock 5400500000 demo_world)
    = (set_clock 5400500000 demo_world, inr demo_user).
Proof.
  split; [exact demo_issue|].
  split; [vm_compute; reflexivity|].
  split; vm_compute; reflexivity.
Qed.

(** One second after issuance plus 90 minutes, it is refused. *)
Lemma expired_token_rejected_witness :
  heap demo_world !! 1%positive = Some {[ "sub" := PStr "42" ]} /\
  (create_token (E:=demo) demo_cfg 1 demo_world).2 = inr demo_token /\
  timegm (clock demo_world) + 90 * 60 < timegm (clock (set_clock 5401000000 demo_world)) /\
  exists e,
    get_current_user_decode (E:=demo) demo_cfg demo_token (set_clock 5401000000 demo_world) =
      (set_log (log (set_clock 5401000000 demo_world) ++ [decode_failure_entry e])
         (set_clock 5401000000 demo_world),
       inl credentials_exception) /\
    failure_kind (decode_failure_entry e) = Malformed.
Proof.
  assert (H : heap demo_world !! 1%positive = Some {[ "sub" := PStr "42" ]})
    by reflexivity.
  assert (Hlate : timegm (clock demo_world) + 90 * 60
                  < timegm (clock (set_clock 5401000000 demo_world)))
    by (vm_compute; reflexivity).
  split; [exact H|]. split; [exact demo_issue|]. split; [exact Hlate|].
  exact (expired_token_rejected (E:=demo) demo_cfg 1 _ demo_world
           (set_clock 5401000000 demo_world) demo_token H demo_issue Hlate).
Defined.

(** A signed token with an empty payload. *)
Lemma missing_subject_rejected_witness :
  (jwt_decode (E:=demo) (Compact "HS256" ∅ (demo_mac "HS256" "k" ∅))
     (SECRET_KEY demo_cfg) [ALGORITHM demo_cfg] demo_world).2 = inr ∅ /\
  (∅ : pydict) !! "sub" = None /\
  get_current_user (E:=demo) demo_cfg (Compact "HS256" ∅ (demo_mac "HS256" "k" ∅))
      1 demo_world =
    (set_log (log demo_world ++ [warning_no_sub ∅;
                                 exception_unexpected credentials_exception]) demo_world,
     inl credentials_exception) /\
  failure_kind (warning_no_sub ∅) = MissingSubject.
Proof.
  assert (Hdec : (jwt_decode (E:=demo) (Compact "HS256" ∅ (demo_mac "HS256" "k" ∅))
                    (SECRET_KEY demo_cfg) [ALGORITHM demo_cfg] demo_world).2 = inr ∅)
    by (vm_compute; reflexivity).
  assert (Hsub : (∅ : pydict) !! "sub" = None) by reflexivity.
  split; [exact Hdec|]. split; [exact Hsub|].
  exact (missing_subject_rejected (E:=demo) demo_cfg _ 1 demo_world ∅ Hdec Hsub).
Defined.

(** A string that is no token, and a signed token for a user the table does
    not hold. *)
Lemma failures_indistinguishable_witness :
  (get_current_user (E:=demo) demo_cfg (Unparsed "garbage") 1 demo_world).2
    = inl credentials_exception /\
  (get_current_user (E:=demo) demo_cfg
     (Compact "HS256" {[ "sub" := PStr "7" ]} (demo_mac "HS256" "k" {[ "sub" := PStr "7" ]}))
     1 demo_world).2 = inl credentials_exception /\
  credentials_exception = credentials_exception /\
  credentials_exception = credentials_exception.
Proof.
  assert (H1 : (get_current_user (E:=demo) demo_cfg (Unparsed "garbage") 1 demo_world).2
               = inl credentials_exception) by (vm_compute; reflexivity).
  assert (H2 : (get_current_user (E:=demo) demo_cfg
                  (Compact "HS256" {[ "sub" := PStr "7" ]}
                     (demo_mac "HS256" "k" {[ "sub" := PStr "7" ]}))
                  1 demo_world).2 = inl credentials_exception) by (vm_compute; reflexivity).
  split; [exact H1|]. split; [exact H2|].
  exact (failures_indistinguishable (E:=demo) demo_cfg _ _ 1 1 demo_world demo_world
           _ _ H1 H2).
Defined.

(** A sign-up that loses the race for its email: the query of line 59 finds
    nobody, the commit raises. *)
Lemma sign_up_duplicate_witness :
  db_online demo_world = true /\
  sessions demo_world !! 1%positive = Some (mkSession [] 0) /\
  email_taken (users (concurrent_commits (E:=demo) demo_racing demo_world).1)
    (UserSignupRequest.email demo_signup) = true /\
  if email_taken (users demo_world) (UserSignupRequest.email demo_signup)
  then sign_up (E:=demo) demo_signup 1 demo_racing demo_world =
         (demo_world, inl (HTTPException HTTP_400_BAD_REQUEST
                             "User with this email already registered." []))
  else (sign_up (E:=demo) demo_signup 1 demo_racing demo_world).2 =
         inl (HTTPException HTTP_400_BAD_REQUEST "Error while creating user" []) /\
       users (sign_up (E:=demo) demo_signup 1 demo_racing demo_world).1 =
         users (concurrent_commits (E:=demo) demo_racing demo_world).1 /\
       pending_of 1 (sign_up (E:=demo) demo_signup 1 demo_racing demo_world).1 = [].
Proof.
  assert (Hon : db_online demo_world = true) by reflexivity.
  assert (Hs : sessions demo_world !! 1%positive = Some (mkSession [] 0)) by reflexivity.
  assert (Hdup : email_taken (users (concurrent_commits (E:=demo) demo_racing demo_world).1)
                   (UserSignupRequest.email demo_signup) = true) by reflexivity.
  split; [exact Hon|]. split; [exact Hs|]. split; [exact Hdup|].
  exact (sign_up_duplicate (E:=demo) demo_signup 1 demo_racing demo_world _ Hon Hs Hdup).
Defined.

(** The login of the demo user. *)
Lemma login_outcomes_witness :
  db_online demo_world = true /\
  (login (E:=demo) demo_cfg demo_login 1 demo_world).2 =
    inr (LoginResponse.mk "success" "User logged in successfully"
           demo_token "bearer" (UserDetails.mk (Some 42) "alice" "a@x")).
Proof.
  assert (Hon : db_online demo_world = true) by reflexivity.
  split; [exact Hon|].
  exact (proj2 (login_outcomes (E:=demo) demo_cfg demo_login 1 demo_world Hon)
           "k" "HS256" (demo_mac "HS256" "k" demo_claims) eq_refl eq_refl eq_refl eq_refl).
Defined.

(** A request whose body is [login]: the body leaves the sessions alone. *)
Lemma session_closed_once_witness :
  (forall db w',
     closes_of db (login (E:=demo) demo_cfg demo_login db w').1 = closes_of db w' /\
     (is_Some (sessions w' !! db) ->
      is_Some (sessions (login (E:=demo) demo_cfg demo_login db w').1 !! db))) /\
  closes_of (fresh (dom (sessions demo_world)))
    (with_db (login (E:=demo) demo_cfg demo_login) demo_world).1 = 1%nat.
Proof.
  assert (Hbody : forall db w',
            closes_of db (login (E:=demo) demo_cfg demo_login db w').1 = closes_of db w' /\
            (is_Some (sessions w' !! db) ->
             is_Some (sessions (login (E:=demo) demo_cfg demo_login db w').1 !! db))).
  { intros db w'. unfold closes_of. rewrite login_sessions. auto. }
  split; [exact Hbody|].
  exact (proj1 (proj2 (session_closed_once (login (E:=demo) demo_cfg demo_login)
                         demo_world Hbody))).
Defined.

(** C2, at the failing input. In an environment with [DATABASE_URL] set and
    no [SECRET_KEY], the program starts, with [SECRET_KEY = None]; the
    missing key is met later, when a token is to be issued: [create_token]
    raises, and so does the [login] of a user with the right password. *)
Theorem startup_without_secret_key :
  getenv demo_env "SECRET_KEY" = None /\
  startup (E:=demo) demo_env = inr keyless_cfg /\
  (create_token (E:=demo) keyless_cfg 1 demo_world).2 =
    inl (JOSEError "Expecting a string- or bytes-formatted key.") /\
  (login (E:=demo) keyless_cfg demo_login 1 demo_world).2 =
    inl (JOSEError "Expecting a string- or bytes-formatted key.").
Proof. repeat split; vm_compute; reflexivity. Qed.

(** * The further properties at concrete inputs *)

(** Bob signs up alone in the demo world and gets the primary key 2. *)
Lemma sign_up_success_witness :
  db_online demo_world = true /\
  sessions demo_world !! 1%positive = Some (mkSession [] 0) /\
  email_taken (table_at_commit (E:=demo) [] demo_world)
    (UserSignupRequest.email demo_signup) = false /\
  Forall (fun r => id r <> Some (next_id (Externals:=demo) (table_at_commit (E:=demo) [] demo_world)))
    (table_at_commit (E:=demo) [] demo_world) /\
  users (sign_up (E:=demo) demo_signup 1 [] demo_world).1 =
    [demo_user; mkUser (Some 2) "bob" "b@x" "h:pw" "" "" ""].
Proof.
  assert (Hon : db_online demo_world = true) by reflexivity.
  assert (Hs : sessions demo_world !! 1%positive = Some (mkSession [] 0)) by reflexivity.
  assert (Hfree : email_taken (table_at_commit (E:=demo) [] demo_world)
                    (UserSignupRequest.email demo_signup) = false) by reflexivity.
  assert (Hpk : Forall (fun r => id r <> Some (next_id (Externals:=demo) (table_at_commit (E:=demo) [] demo_world)))
                  (table_at_commit (E:=demo) [] demo_world)).
  { repeat constructor. vm_compute. discriminate. }
  split; [exact Hon|]. split; [exact Hs|]. split; [exact Hfree|]. split; [exact Hpk|].
  exact (proj1 (proj2 (sign_up_success (E:=demo) demo_signup 1 [] demo_world 0
                         Hon Hs Hfree Hpk))).
Defined.

Lemma sign_up_alone_witness :
  sessions demo_world !! 1%positive = Some (mkSession [] 0) /\
  (sign_up (E:=demo) demo_signup 1 [] demo_world).2 <>
    inl (HTTPException HTTP_400_BAD_REQUEST "Error while creating user" []).
Proof.
  assert (Hs : sessions demo_world !! 1%positive = Some (mkSession [] 0)) by reflexivity.
  split; [exact Hs|].
  exact (sign_up_alone (E:=demo) demo_signup 1 demo_world 0 Hs).
Defined.

Lemma sign_up_then_login_witness :
  key_signs (E:=demo) "HS256" "k" /\
  verify_password (Externals:=demo) (UserSignupRequest.password demo_signup)
    (hash_password (Externals:=demo) (UserSignupRequest.password demo_signup)) = true /\
  exists tok,
    (login (E:=demo) demo_cfg (UserLoginRequest.mk "b@x" "pw") 1
       (sign_up (E:=demo) demo_signup 1 [] demo_world).1).2 =
      inr (LoginResponse.mk "success" "User logged in successfully" tok "bearer"
             (UserDetails.mk (Some 2) "bob" "b@x")).
Proof.
  assert (Hsigns : key_signs (E:=demo) "HS256" "k") by (intros claims; cbn; eauto).
  assert (Hv : verify_password (Externals:=demo) (UserSignupRequest.password demo_signup)
                 (hash_password (Externals:=demo) (UserSignupRequest.password demo_signup))
               = true) by reflexivity.
  assert (Hpk : Forall (fun r => id r <> Some (next_id (Externals:=demo) (table_at_commit (E:=demo) [] demo_world)))
                  (table_at_commit (E:=demo) [] demo_world)).
  { repeat constructor. vm_compute. discriminate. }
  split; [exact Hsigns|]. split; [exact Hv|].
  exact (sign_up_then_login (E:=demo) demo_cfg demo_signup 1 1 [] demo_world 0 "k" "HS256"
           eq_refl eq_refl eq_refl Hsigns Hv eq_refl eq_refl eq_refl Hpk).
Defined.

Lemma demo_accepted :
  get_current_user (E:=demo) demo_cfg demo_token 1 demo_world = (demo_world, inr demo_user).
Proof. vm_compute. reflexivity. Qed.

Lemma get_current_user_sound_witness :
  get_current_user (E:=demo) demo_cfg demo_token 1 demo_world = (demo_world, inr demo_user) /\
  In demo_user (users demo_world).
Proof.
  split; [exact demo_accepted|].
  exact (proj1 (proj2 (proj2 (get_current_user_sound (E:=demo) demo_cfg demo_token 1
                                demo_world demo_world demo_user demo_accepted)))).
Defined.

Lemma demo_id_matches_str (k1 k2 : Z) :
  demo_id_matches k1 (PStr (pretty k2)) = bool_decide (k1 = k2).
Proof.
  unfold demo_id_matches. destruct (String.eqb_spec (pretty k1) (pretty k2)) as [Heq|Hne].
  - apply (inj pretty) in Heq. subst. symmetry. apply bool_decide_eq_true_2. reflexivity.
  - symmetry. apply bool_decide_eq_false_2. intros ->. apply Hne. reflexivity.
Qed.

(** Alice logs in at the epoch and presents her token one hour later, in
    the header [Bearer demo.token]. *)
Lemma login_then_check_token_witness :
  (forall k1 k2, id_matches (Externals:=demo) k1 (PStr (pretty k2)) = bool_decide (k1 = k2)) /\
  clock (set_clock 3600000000 demo_world) < (timegm (clock demo_world) + 5400) * 1000000 /\
  oauth2_scheme (Some "Bearer demo.token") = inr "demo.token" /\
  read_token (Externals:=demo) "demo.token" = demo_token /\
  (login (E:=demo) demo_cfg demo_login 1 demo_world).2 =
    inr (LoginResponse.mk "success" "User logged in successfully"
           demo_token "bearer" (UserDetails.mk (Some 42) "alice" "a@x")) /\
  check_token_route (E:=demo) demo_cfg (Some "Bearer demo.token") 1
      (set_clock 3600000000 demo_world) =
    (set_clock 3600000000 demo_world,
     inr (CheckTokenResponse.mk "success" "Token is valid"
            (UserDetails.mk (Some 42) "alice" "a@x"))).
Proof.
  assert (Hb : clock (set_clock 3600000000 demo_world)
               < (timegm (clock demo_world) + 5400) * 1000000) by (vm_compute; reflexivity).
  assert (Hpk : forall u', In u' (users (set_clock 3600000000 demo_world)) ->
                           id u' = Some 42 -> u' = demo_user).
  { intros u' [<-|[]] _. reflexivity. }
  assert (Hscheme : oauth2_scheme (Some "Bearer demo.token") = inr "demo.token")
    by (vm_compute; reflexivity).
  assert (Hread : read_token (Externals:=demo) "demo.token" = demo_token) by reflexivity.
  assert (Hsign : sign_header_and_claims (Externals:=demo) "HS256" "k"
                    (issued_claims {[ "sub" := PStr (str_id (id demo_user)) ]}
                       (clock demo_world))
                  = Some (demo_mac "HS256" "k" demo_claims)) by (vm_compute; reflexivity).
  assert (Hmatch : sig_matches_keys (Externals:=demo) "HS256" "k"
                     (issued_claims {[ "sub" := PStr (str_id (id demo_user)) ]}
                        (clock demo_world))
                     (demo_mac "HS256" "k" demo_claims) = inr true)
    by (vm_compute; reflexivity).
  split; [exact demo_id_matches_str|]. split; [exact Hb|].
  split; [exact Hscheme|]. split; [exact Hread|].
  destruct (login_then_check_token (E:=demo) demo_cfg demo_login 1 1 demo_world
              (set_clock 3600000000 demo_world) demo_user 42 "k" "HS256" _
              eq_refl eq_refl eq_refl Hsign Hmatch demo_id_matches_str eq_refl eq_refl
              eq_refl eq_refl eq_refl (or_introl eq_refl) Hpk Hb)
    as (r & Hlogin & _ & _ & Hroute).
  assert (Hr : r = LoginResponse.mk "success" "User logged in successfully"
                     demo_token "bearer" (UserDetails.mk (Some 42) "alice" "a@x")).
  { assert (Hl : (login (E:=demo) demo_cfg demo_login 1 demo_world).2 =
                 inr (LoginResponse.mk "success" "User logged in successfully"
                        demo_token "bearer" (UserDetails.mk (Some 42) "alice" "a@x")))
      by (vm_compute; reflexivity).
    rewrite Hlogin in Hl. inversion Hl. reflexivity. }
  subst r. split; [exact Hlogin|].
  exact (Hroute (Some "Bearer demo.token") "demo.token" Hscheme Hread).
Defined.

Lemma subject_token_window_witness :
  heap demo_world !! 1%positive = Some {[ "sub" := PStr "42" ]} /\
  sig_matches_keys (Externals:=demo) "HS256" "k"
    (issued_claims {[ "sub" := PStr "42" ]} (clock demo_world))
    (demo_mac "HS256" "k" demo_claims) = inr true /\
  exists tok,
    (create_token (E:=demo) demo_cfg 1 demo_world).2 = inr tok /\
    forall w', (get_current_user_decode (E:=demo) demo_cfg tok w').2 = inr (PStr "42") <->
               timegm (clock w') <= timegm (clock demo_world) + 5400.
Proof.
  assert (H : heap demo_world !! 1%positive = Some {[ "sub" := PStr "42" ]})
    by reflexivity.
  assert (Hh : algorithm_supported (Externals:=demo) "HS256" = true) by reflexivity.
  assert (Hsign : sign_header_and_claims (Externals:=demo) "HS256" "k"
                    (issued_claims {[ "sub" := PStr "42" ]} (clock demo_world))
                  = Some (demo_mac "HS256" "k" demo_claims)) by (vm_compute; reflexivity).
  assert (Hmatch : sig_matches_keys (Externals:=demo) "HS256" "k"
                     (issued_claims {[ "sub" := PStr "42" ]} (clock demo_world))
                     (demo_mac "HS256" "k" demo_claims) = inr true)
    by (vm_compute; reflexivity).
  split; [exact H|]. split; [exact Hmatch|].
  exact (subject_token_window (E:=demo) demo_cfg "42" "k" "HS256" _ 1 demo_world
           eq_refl eq_refl Hh H Hsign Hmatch).
Defined.

(** The demo world with the store out of reach. *)
Lemma store_unreachable_witness :
  db_online (mkWorld 0 ∅ [] false [demo_user] ∅) = false /\
  login (E:=demo) demo_cfg demo_login 1 (mkWorld 0 ∅ [] false [demo_user] ∅) =
    (mkWorld 0 ∅ [] false [demo_user] ∅, inl OperationalError) /\
  sign_up (E:=demo) demo_signup 1 [] (mkWorld 0 ∅ [] false [demo_user] ∅) =
    (mkWorld 0 ∅ [] false [demo_user] ∅, inl OperationalError).
Proof.
  assert (Hoff : db_online (mkWorld 0 ∅ [] false [demo_user] ∅) = false) by reflexivity.
  split; [exact Hoff|].
  pose proof (store_unreachable (E:=demo) demo_cfg demo_login demo_signup [] demo_token
                (PStr "42") 1 (mkWorld 0 ∅ [] false [demo_user] ∅) Hoff) as (Hl & Hs & _).
  split; [exact Hl|exact Hs].
Defined.

Lemma sign_up_request_witness :
  db_online demo_world = true /\
  email_taken (table_at_commit (E:=demo) [] demo_world)
    (UserSignupRequest.email demo_signup) = false /\
  sessions (with_db (fun db => sign_up (E:=demo) demo_signup db []) demo_world).1
    !! fresh (dom (sessions demo_world)) = Some (mkSession [] 1).
Proof.
  assert (Hon : db_online demo_world = true) by reflexivity.
  assert (Hfree : email_taken (table_at_commit (E:=demo) [] demo_world)
                    (UserSignupRequest.email demo_signup) = false) by reflexivity.
  assert (Hpk : Forall (fun r => id r <> Some (next_id (Externals:=demo) (table_at_commit (E:=demo) [] demo_world)))
                  (table_at_commit (E:=demo) [] demo_world)).
  { repeat constructor. vm_compute. discriminate. }
  split; [exact Hon|]. split; [exact Hfree|].
  exact (proj2 (proj2 (sign_up_request (E:=demo) demo_signup [] demo_world Hon Hfree Hpk))).
Defined.

(** With no key, no token, whatever the dictionary. *)
Lemma create_token_returns_iff_witness :
  heap demo_world !! 1%positive = Some {[ "sub" := PStr "42" ]} /\
  ~ exists tok, (create_token (E:=demo) keyless_cfg 1 demo_world).2 = inr tok.
Proof.
  assert (H : heap demo_world !! 1%positive = Some {[ "sub" := PStr "42" ]})
    by reflexivity.
  split; [exact H|].
  intros Hex.
  apply (create_token_returns_iff (E:=demo) keyless_cfg 1 _ demo_world H) in Hex
    as (k & a & Hk & _).
  discriminate Hk.
Defined.

(** The demo token with its signature off by one. *)
Lemma foreign_signature_rejected_witness :
  SECRET_KEY demo_cfg = Some "k" /\
  sig_matches_keys (Externals:=demo) "HS256" "k" demo_claims
    (demo_mac "HS256" "k" demo_claims + 1)%N <> inr true /\
  exists e,
    get_current_user (E:=demo) demo_cfg
        (Compact "HS256" demo_claims (demo_mac "HS256" "k" demo_claims + 1)%N) 1 demo_world =
      (set_log (log demo_world ++ [decode_failure_entry e]) demo_world,
       inl credentials_exception) /\
    failure_kind (decode_failure_entry e) = Malformed.
Proof.
  assert (Hsig : sig_matches_keys (Externals:=demo) "HS256" "k" demo_claims
                   (demo_mac "HS256" "k" demo_claims + 1)%N <> inr true).
  { vm_compute. discriminate. }
  split; [reflexivity|]. split; [exact Hsig|].
  exact (foreign_signature_rejected (E:=demo) demo_cfg "HS256" "k" demo_claims _ 1 demo_world
           eq_refl Hsig).
Defined.
